(** * A shallow embedding of HR-Resume-Management

    The three Python modules are embedded here:
    - [resume_processor.py]: [clean_json_files] over a folder of texts, the
      file loop and the per-record flattening of [process_resume_json_files],
      the date-token parser [parse_date], and [process_duration_column]
      with the range splitting lambdas, the datetime columns pandas builds
      from their results, and [calculate_duration_in_months];
    - [main_v2.py]: the mobile normalisation, the per-mobile grouping, the
      merge and the save loop of [upload_resumes], and the start of
      [view_resumes];
    - [database.py]: [insert_resume_data], [update_resume], [delete_resume],
      [search_resumes] and [fetch_resumes] over an explicit table state (the
      LLM call of [extract_zip_and_process_resumes] and the connection
      helpers are not modelled).

    Python strings are lists of code points ([list N]).  Python's character
    classes are modelled as follows: whitespace is the exact set used by
    [str.isspace] (and by [str.strip] and regex [\s]); [str.lower],
    [str.isdigit], case-insensitive matching and the regex classes [\d] and
    [\w] are modelled on their ASCII part. *)

From Stdlib Require Import List String Ascii ZArith NArith Bool Lia Permutation.
Set Warnings "-register-all".
Import ListNotations.
Open Scope list_scope.

(* ------------------------------------------------------------------ *)
(** ** Python strings *)

Definition pystr := list N.

(** Conversion of an ASCII literal into a Python string. *)
Fixpoint s2p (s : string) : pystr :=
  match s with
  | EmptyString => []
  | String a r => N_of_ascii a :: s2p r
  end.

Definition EN_DASH : N := 8211.
Definition HYPHEN : N := 45.
Definition SPACE : N := 32.

(** [str.isspace] on one code point (CPython's [Py_UNICODE_ISSPACE]). *)
Definition py_isspace (c : N) : bool :=
  ((9 <=? c) && (c <=? 13))%N || ((28 <=? c) && (c <=? 32))%N
  || (c =? 133)%N || (c =? 160)%N || (c =? 5760)%N
  || ((8192 <=? c) && (c <=? 8202))%N
  || (c =? 8232)%N || (c =? 8233)%N || (c =? 8239)%N
  || (c =? 8287)%N || (c =? 12288)%N.

Definition py_isdigit (c : N) : bool := ((48 <=? c) && (c <=? 57))%N.

Definition py_isalpha (c : N) : bool :=
  ((65 <=? c) && (c <=? 90))%N || ((97 <=? c) && (c <=? 122))%N.

(** Regex class [\w]. *)
Definition py_isword (c : N) : bool := py_isalpha c || py_isdigit c || (c =? 95)%N.

(** [str.lower] on one code point. *)
Definition lower_char (c : N) : N :=
  if ((65 <=? c) && (c <=? 90))%N then (c + 32)%N else c.

Definition py_lower (s : pystr) : pystr := map lower_char s.

Fixpoint mem (c : N) (s : pystr) : bool :=
  match s with
  | [] => false
  | x :: t => (x =? c)%N || mem c t
  end.

Definition lstrip_by (f : N -> bool) (s : pystr) : pystr :=
  (fix go (s : pystr) := match s with
                         | [] => []
                         | x :: t => if f x then go t else s
                         end) s.

Definition rstrip_by (f : N -> bool) (s : pystr) : pystr :=
  rev (lstrip_by f (rev s)).

(** [s.strip()]. *)
Definition py_strip (s : pystr) : pystr := rstrip_by py_isspace (lstrip_by py_isspace s).

(** [s.strip(chars)]. *)
Definition py_strip_chars (chars : pystr) (s : pystr) : pystr :=
  rstrip_by (fun c => mem c chars) (lstrip_by (fun c => mem c chars) s).

(** [s.split(sep)] for a one-character separator. *)
Fixpoint py_split (sep : N) (s : pystr) : list pystr :=
  match s with
  | [] => [[]]
  | x :: t =>
      let r := py_split sep t in
      if (x =? sep)%N then [] :: r
      else match r with
           | [] => [[x]]
           | h :: rs => (x :: h) :: rs
           end
  end.

(** Indexing [[0]] and [[-1]] of a (never empty) split result. *)
Definition first_seg (l : list pystr) : pystr := hd [] l.
Definition last_seg (l : list pystr) : pystr := last l [].

(** Decimal rendering of a natural number ([str] of an int). *)
Definition digits_of_N (n : N) : pystr :=
  let fix go (fuel : nat) (n : N) (acc : pystr) : pystr :=
    match fuel with
    | O => acc
    | S f =>
        let acc' := (48 + N.modulo n 10)%N :: acc in
        if (n <? 10)%N then acc' else go f (N.div n 10) acc'
    end in
  go (S (N.size_nat n)) n [].

Definition str_of_Z (z : Z) : pystr :=
  if (z <? 0)%Z then HYPHEN :: digits_of_N (Z.to_N (- z)) else digits_of_N (Z.to_N z).

(* ------------------------------------------------------------------ *)
(** ** JSON values as [json.loads] returns them *)

(** A parsed JSON document: [None], [bool], [int] (JSON numbers are modelled
    as integers), [str], [list] and [dict].  A [dict] is an association list
    whose keys are distinct, as in a Python dict. *)
Inductive json : Type :=
| JNull
| JBool (b : bool)
| JNum (z : Z)
| JStr (s : pystr)
| JArr (l : list json)
| JObj (kv : list (pystr * json)).

Fixpoint dict_get (kv : list (pystr * json)) (k : pystr) : option json :=
  match kv with
  | [] => None
  | (k', v) :: t => if list_eq_dec N.eq_dec k k' then Some v else dict_get t k
  end.

(** [d.get(k, default)]. *)
Definition get_or (kv : list (pystr * json)) (k : pystr) (default : json) : json :=
  match dict_get kv k with Some v => v | None => default end.

(** Python truthiness. *)
Definition py_truthy (v : json) : bool :=
  match v with
  | JNull => false
  | JBool b => b
  | JNum z => negb (z =? 0)%Z
  | JStr s => match s with [] => false | _ => true end
  | JArr l => match l with [] => false | _ => true end
  | JObj kv => match kv with [] => false | _ => true end
  end.

(** [repr] of a string: the text is put between double quotes only when it
    holds a single quote and no double quote, otherwise between single quotes; backslash, the quote and [\n \r \t] are
    escaped (other non-printable characters are kept as they are). *)
Definition repr_str (s : pystr) : pystr :=
  let q := if mem 39 s && negb (mem 34 s) then 34%N else 39%N in
  q :: flat_map (fun c =>
         if (c =? 92)%N then [92; 92]%N
         else if (c =? q)%N then [92; q]%N
         else if (c =? 10)%N then [92; 110]%N
         else if (c =? 13)%N then [92; 114]%N
         else if (c =? 9)%N then [92; 116]%N
         else [c]) s ++ [q].

Fixpoint join (sep : pystr) (l : list pystr) : pystr :=
  match l with
  | [] => []
  | [x] => x
  | x :: t => x ++ sep ++ join sep t
  end.

(** [repr] of a value (used inside [str] of containers). *)
Fixpoint py_repr (v : json) : pystr :=
  match v with
  | JNull => s2p "None"
  | JBool true => s2p "True"
  | JBool false => s2p "False"
  | JNum z => str_of_Z z
  | JStr s => repr_str s
  | JArr l => [91%N] ++ join (s2p ", ") (map py_repr l) ++ [93%N]
  | JObj kv =>
      [123%N] ++ join (s2p ", ")
        (map (fun '(k, x) => repr_str k ++ s2p ": " ++ py_repr x) kv) ++ [125%N]
  end.

(** [str(v)], as an f-string renders it. *)
Definition py_str (v : json) : pystr :=
  match v with
  | JStr s => s
  | _ => py_repr v
  end.

(* ------------------------------------------------------------------ *)
(** ** Flattening one record ([process_resume_json_files], lines 122-149) *)

Inductive py_exn : Type := AttributeError | TypeError.

Record resume_row : Type := mk_row {
  Name : json; Mobile : json; Email : json; Graduation : pystr;
  Company : json; Role : json; Duration : json }.

Definition K_NAME := s2p "Name".
Definition K_MOBILE := s2p "Mobile".
Definition K_EMAIL := s2p "Email".
Definition K_GRADUATION := s2p "Graduation".
Definition K_DEGREE := s2p "Degree".
Definition K_INSTITUTION := s2p "Institution".
Definition K_WORK := s2p "Work Experiences".
Definition K_COMPANY := s2p "Company".
Definition K_ROLE := s2p "Role".
Definition K_DURATION := s2p "Duration".

Definition EMPTY : json := JStr [].

(** [graduation_info = resume_data.get('Graduation', {}) or {}]. *)
Definition graduation_info (resume_data : list (pystr * json)) : json :=
  let g := get_or resume_data K_GRADUATION (JObj []) in
  if py_truthy g then g else JObj [].

Definition graduation_degree (resume_data : list (pystr * json)) : json :=
  match graduation_info resume_data with
  | JObj kv => get_or kv K_DEGREE EMPTY
  | _ => EMPTY
  end.

Definition graduation_institution (resume_data : list (pystr * json)) : json :=
  match graduation_info resume_data with
  | JObj kv => get_or kv K_INSTITUTION EMPTY
  | _ => EMPTY
  end.

(** [f"{graduation_degree} - {graduation_institution}".strip(' -')]. *)
Definition graduation_str (resume_data : list (pystr * json)) : pystr :=
  py_strip_chars (s2p " -")
    (py_str (graduation_degree resume_data) ++ s2p " - "
     ++ py_str (graduation_institution resume_data)).

(** The row built for one experience dict. *)
Definition experience_row (resume_data : list (pystr * json))
    (experience : list (pystr * json)) : resume_row :=
  {| Name := get_or resume_data K_NAME EMPTY;
     Mobile := get_or resume_data K_MOBILE EMPTY;
     Email := get_or resume_data K_EMAIL EMPTY;
     Graduation := graduation_str resume_data;
     Company := get_or experience K_COMPANY EMPTY;
     Role := get_or experience K_ROLE EMPTY;
     Duration := get_or experience K_DURATION EMPTY |}.

(** The row of the [else] branch. *)
Definition placeholder_row (resume_data : list (pystr * json)) : resume_row :=
  {| Name := get_or resume_data K_NAME EMPTY;
     Mobile := get_or resume_data K_MOBILE EMPTY;
     Email := get_or resume_data K_EMAIL EMPTY;
     Graduation := graduation_str resume_data;
     Company := EMPTY; Role := EMPTY; Duration := EMPTY |}.

(** [for experience in ...]: what iterating a value yields. *)
Definition py_iter (v : json) : option (list json) :=
  match v with
  | JArr l => Some l
  | JStr s => Some (map (fun c => JStr [c]) s)
  | JObj kv => Some (map (fun '(k, _) => JStr k) kv)
  | _ => None
  end.

(** The loop body: [experience.get(...)] raises [AttributeError] on a value
    that is not a dict; rows appended before that stay appended. *)
Fixpoint emit_rows (resume_data : list (pystr * json)) (l : list json)
    : list resume_row * option py_exn :=
  match l with
  | [] => ([], None)
  | JObj kv :: t =>
      let '(rs, e) := emit_rows resume_data t in (experience_row resume_data kv :: rs, e)
  | _ :: _ => ([], Some AttributeError)
  end.

(** Rows appended to [all_resumes] for one dict record, with the exception
    that escaped to the per-file handler, if any. *)
Definition flatten_record (resume_data : list (pystr * json))
    : list resume_row * option py_exn :=
  let we := get_or resume_data K_WORK JNull in
  if py_truthy we then
    match py_iter we with
    | Some l => emit_rows resume_data l
    | None => ([], Some TypeError)
    end
  else ([placeholder_row resume_data], None).

(** One input file after reading and [json.loads]. *)
Inductive file_content : Type :=
| FEmpty                 (** the stripped content is empty *)
| FDecodeError           (** [json.loads] raised [JSONDecodeError] *)
| FParsed (v : json).

Record error_entry : Type := mk_error { filename : pystr; error_type : pystr }.

Definition exn_name (e : py_exn) : pystr :=
  match e with AttributeError => s2p "AttributeError" | TypeError => s2p "TypeError" end.

(** The body of the [for filename in ...] loop with its [try]/[except]. *)
Definition process_file (acc : list resume_row * list error_entry)
    (f : pystr * file_content) : list resume_row * list error_entry :=
  let '(rows, log) := acc in
  let '(name, c) := f in
  match c with
  | FEmpty => (rows, log ++ [mk_error name (s2p "Empty File")])
  | FDecodeError => (rows, log ++ [mk_error name (s2p "JSON Decode Error")])
  | FParsed (JObj d) =>
      let '(rs, e) := flatten_record d in
      (rows ++ rs,
       match e with
       | None => log
       | Some ex => log ++ [mk_error name (exn_name ex)]
       end)
  | FParsed _ => (rows, log ++ [mk_error name (s2p "Invalid JSON")])
  end.

Definition process_resume_json_files (files : list (pystr * file_content))
    : list resume_row * list error_entry :=
  fold_left process_file files ([], []).

Definition is_dict (v : json) : bool :=
  match v with JObj _ => true | _ => false end.

Definition dict_of (v : json) : list (pystr * json) :=
  match v with JObj kv => kv | _ => [] end.

(** The characters removed by [strip(' -')]. *)
Definition GRAD_SEP : pystr := s2p " -".

(** The spec's reading of the Graduation display string: the non-empty parts
    among degree and institution joined by [" - "]. *)
Definition joined_parts (degree institution : pystr) : pystr :=
  join (s2p " - ") (filter (fun p => match p with [] => false | _ => true end)
                           [degree; institution]).

(** The shape on which the experience loop raises nothing: [Work Experiences]
    is absent or falsy, or a list of dicts. *)
Definition work_well_formed (resume_data : list (pystr * json)) : bool :=
  match dict_get resume_data K_WORK with
  | None => true
  | Some v => negb (py_truthy v)
              || match v with JArr l => forallb is_dict l | _ => false end
  end.

(** The identity fields every row of a record carries. *)
Definition carries_identity (resume_data : list (pystr * json)) (r : resume_row) : Prop :=
  Name r = get_or resume_data K_NAME EMPTY /\
  Mobile r = get_or resume_data K_MOBILE EMPTY /\
  Email r = get_or resume_data K_EMAIL EMPTY /\
  Graduation r = graduation_str resume_data.

(* ------------------------------------------------------------------ *)
(** ** Regular expressions, as Python's [re] runs them *)

(** The fragment of [re] syntax used by [_strptime] and by [parse_date]'s
    fallback.  The subject is already lower-cased, and every literal of the
    patterns is lower case or not a letter. *)
Inductive rx : Type :=
| REps
| RLit (c : N)
| RClass (f : N -> bool)
| RPlus (f : N -> bool)                (** greedy [f+] *)
| RStar (f : N -> bool)                (** greedy [f*] *)
| RAlt (r1 r2 : rx)
| RSeq (r1 r2 : rx)
| RGroup (name : N) (r : rx).

Fixpoint span_len (f : N -> bool) (s : pystr) : nat :=
  match s with
  | x :: t => if f x then S (span_len f t) else O
  | [] => O
  end.

Fixpoint downto (n : nat) : list nat :=
  match n with O => [O] | S k => n :: downto k end.

Definition captures := list (N * pystr).

(** All matches of [r] at the start of [s], as (captures, rest of the
    subject), in the order the backtracking engine tries them. *)
Fixpoint rmatch (r : rx) (s : pystr) : list (captures * pystr) :=
  match r with
  | REps => [([], s)]
  | RLit c => match s with x :: t => if (x =? c)%N then [([], t)] else [] | [] => [] end
  | RClass f => match s with x :: t => if f x then [([], t)] else [] | [] => [] end
  | RPlus f => map (fun k => ([], skipn k s))
                   (filter (fun k => negb (Nat.eqb k 0)) (downto (span_len f s)))
  | RStar f => map (fun k => ([], skipn k s)) (downto (span_len f s))
  | RAlt r1 r2 => rmatch r1 s ++ rmatch r2 s
  | RSeq r1 r2 =>
      flat_map (fun '(c1, s1) => map (fun '(c2, s2) => (c1 ++ c2, s2)) (rmatch r2 s1))
               (rmatch r1 s)
  | RGroup g r =>
      map (fun '(c, s1) => ((g, firstn (List.length s - List.length s1) s) :: c, s1))
          (rmatch r s)
  end.

(** [re.match]: the first match found. *)
Definition re_match (r : rx) (s : pystr) : option (captures * pystr) := hd_error (rmatch r s).

(** [re.search]: the first match at the leftmost position that has one. *)
Fixpoint re_search (r : rx) (s : pystr) : option (captures * pystr) :=
  match rmatch r s with
  | m :: _ => Some m
  | [] => match s with [] => None | _ :: t => re_search r t end
  end.

Fixpoint cap (g : N) (c : captures) : option pystr :=
  match c with
  | [] => None
  | (g', v) :: t => if (g =? g')%N then Some v else cap g t
  end.

Definition rx_chars (s : pystr) : rx := fold_right (fun c r => RSeq (RLit c) r) REps s.

Fixpoint rx_alts (l : list pystr) : rx :=
  match l with
  | [] => RClass (fun _ => false)
  | [w] => rx_chars w
  | w :: t => RAlt (rx_chars w) (rx_alts t)
  end.

Definition rx_in (lo hi : N) : rx := RClass (fun c => ((lo <=? c) && (c <=? hi))%N).

(* ------------------------------------------------------------------ *)
(** ** [datetime.strptime] for the formats of [parse_date] *)

Record date : Type := mk_date { year : Z; month : Z; day : Z }.

(** [calendar.month_abbr] and [calendar.month_name], lower-cased. *)
Definition month_abbr : list pystr :=
  map s2p ["jan"; "feb"; "mar"; "apr"; "may"; "jun"; "jul"; "aug"; "sep"; "oct"; "nov"; "dec"]%string.
Definition month_name : list pystr :=
  map s2p ["january"; "february"; "march"; "april"; "may"; "june"; "july"; "august";
           "september"; "october"; "november"; "december"]%string.

(** [__seqToRE] sorts the names by decreasing length, keeping ties in order. *)
Definition month_name_by_length : list pystr :=
  map s2p ["september"; "february"; "november"; "december"; "january"; "october";
           "august"; "march"; "april"; "june"; "july"; "may"]%string.

(** The directive regexes of [_strptime.TimeRE]; an unknown directive
    matches nothing. *)
Definition directive (d : N) : rx :=
  let digit := RClass py_isdigit in
  if (d =? 89)%N then                              (* %Y *)
    RGroup d (RSeq digit (RSeq digit (RSeq digit digit)))
  else if (d =? 109)%N then                        (* %m: 1[0-2]|0[1-9]|[1-9] *)
    RGroup d (RAlt (RSeq (RLit 49) (rx_in 48 50))
               (RAlt (RSeq (RLit 48) (rx_in 49 57)) (rx_in 49 57)))
  else if (d =? 100)%N then                        (* %d: 3[01]|[12]\d|0[1-9]|[1-9]| [1-9] *)
    RGroup d (RAlt (RSeq (RLit 51) (rx_in 48 49))
               (RAlt (RSeq (rx_in 49 50) digit)
                 (RAlt (RSeq (RLit 48) (rx_in 49 57))
                   (RAlt (rx_in 49 57) (RSeq (RLit 32) (rx_in 49 57))))))
  else if (d =? 98)%N then RGroup d (rx_alts month_abbr)          (* %b *)
  else if (d =? 66)%N then RGroup d (rx_alts month_name_by_length) (* %B *)
  else RClass (fun _ => false).

(** [TimeRE.pattern]: a run of whitespace becomes [\s+], [%x] its directive
    regex, any other character itself. *)
Fixpoint compile_format (f : pystr) : rx :=
  match f with
  | [] => REps
  | c :: t =>
      if (c =? 37)%N then
        match t with
        | d :: t' => RSeq (directive d) (compile_format t')
        | [] => RLit 37
        end
      else if py_isspace c then
        match t with
        | c' :: _ => if py_isspace c' then compile_format t else RSeq (RPlus py_isspace) (compile_format t)
        | [] => RPlus py_isspace
        end
      else RSeq (RLit c) (compile_format t)
  end.

(** [int(s)] on the digits of a capture (a [%d] capture may start with a space). *)
Definition py_int (s : pystr) : Z :=
  fold_left (fun acc c => (acc * 10 + Z.of_N (c - 48))%Z) (filter py_isdigit s) 0%Z.

Fixpoint index_of (w : pystr) (l : list pystr) (i : Z) : Z :=
  match l with
  | [] => 0%Z
  | x :: t => if list_eq_dec N.eq_dec w x then i else index_of w t (i + 1)
  end.

Definition is_leap (y : Z) : bool :=
  (Z.eqb (Z.modulo y 4) 0 && negb (Z.eqb (Z.modulo y 100) 0)) || Z.eqb (Z.modulo y 400) 0.

Definition days_in_month (y m : Z) : Z :=
  if (m =? 2)%Z then (if is_leap y then 29 else 28)
  else if (m =? 4)%Z || (m =? 6)%Z || (m =? 9)%Z || (m =? 11)%Z then 30 else 31.

(** [datetime(year, month, day)], or [ValueError]. *)
Definition mk_datetime (y m d : Z) : option date :=
  if (1 <=? y)%Z && (y <=? 9999)%Z && (1 <=? m)%Z && (m <=? 12)%Z
     && (1 <=? d)%Z && (d <=? days_in_month y m)%Z
  then Some (mk_date y m d) else None.

(** [datetime.strptime(s, fmt)]; [None] stands for [ValueError]. *)
Definition strptime (s fmt : pystr) : option date :=
  match re_match (compile_format fmt) s with
  | Some (c, []) =>
      let y := match cap 89 c with Some v => py_int v | None => 1900%Z end in
      let m := match cap 109 c with
               | Some v => py_int v
               | None => match cap 98 c with
                         | Some v => index_of v month_abbr 1
                         | None => match cap 66 c with
                                   | Some v => index_of v month_name 1
                                   | None => 1%Z
                                   end
                         end
               end in
      let d := match cap 100 c with Some v => py_int v | None => 1%Z end in
      mk_datetime y m d
  | _ => None
  end.

Definition date_formats : list pystr :=
  map s2p ["%b %Y"; "%B %Y"; "%Y-%m"; "%m-%Y"; "%b. %Y"; "%B. %Y";
           "%d %b %Y"; "%d %B %Y"; "%b %d, %Y"; "%B %d, %Y";
           "%Y"; "%m/%Y"; "%Y/%m"]%string.

Fixpoint try_formats (s : pystr) (fmts : list pystr) : option date :=
  match fmts with
  | [] => None
  | f :: t => match strptime s f with Some d => Some d | None => try_formats s t end
  end.

(** The [months] table of [parse_date], looked up with a key of at most three
    letters. *)
Definition months_get (k : pystr) : option Z :=
  let i := index_of k month_abbr 1 in
  if (1 <=? i)%Z then Some i else None.

(** [(\w+)\s*(\d{4})]. *)
Definition fallback_rx : rx :=
  RSeq (RGroup 1 (RPlus py_isword))
       (RSeq (RStar py_isspace)
             (RGroup 2 (RSeq (RClass py_isdigit) (RSeq (RClass py_isdigit)
                        (RSeq (RClass py_isdigit) (RClass py_isdigit)))))).

Definition fallback (s : pystr) : option date :=
  match re_search fallback_rx s with
  | Some (c, _) =>
      match cap 1 c, cap 2 c with
      | Some month_str, Some yr =>
          let month_num := match months_get (firstn 3 (py_lower month_str)) with
                           | Some m => m | None => 1%Z end in
          mk_datetime (py_int yr) month_num 1
      | _, _ => None
      end
  | None => None
  end.

Definition literal_now : list pystr := map s2p ["present"; "running"; "current"]%string.

(** [parse_date]; the argument [None] is Python's [None] (or a NaN), [now]
    is [datetime.now()]. *)
Definition parse_date (now : date) (date_str : option pystr) : option date :=
  match date_str with
  | None => None
  | Some [] => None
  | Some s0 =>
      let s := py_lower (py_strip s0) in
      if existsb (fun w => if list_eq_dec N.eq_dec s w then true else false) literal_now
      then Some now
      else match try_formats s date_formats with
           | Some d => Some d
           | None => fallback s
           end
  end.



(** The arguments the two [apply] lambdas of [process_duration_column] pass
    to [parse_date], for a string Duration. *)
Definition start_arg (x : pystr) : option pystr :=
  if mem EN_DASH x then Some (py_strip (first_seg (py_split EN_DASH x)))
  else if mem HYPHEN x then Some (py_strip (first_seg (py_split HYPHEN x)))
  else Some x.

Definition end_arg (x : pystr) : option pystr :=
  if mem EN_DASH x then Some (py_strip (last_seg (py_split EN_DASH x)))
  else if mem HYPHEN x then Some (py_strip (last_seg (py_split HYPHEN x)))
  else None.

Definition Start_Date (now : date) (x : pystr) : option date := parse_date now (start_arg x).
Definition End_Date (now : date) (x : pystr) : option date := parse_date now (end_arg x).






(* ------------------------------------------------------------------ *)
(** ** Per-mobile aggregation ([upload_resumes] in [main_v2.py]) *)

(** [flatten_mobile]: the digits of a string ([str.isdigit]), the digits of
    the first element of a list ([None] for an empty list), anything else
    unchanged. *)
Definition flatten_mobile (mobile : json) : json :=
  match mobile with
  | JArr l => match l with
              | [] => JNull
              | m0 :: _ => JStr (filter py_isdigit (py_str m0))
              end
  | JStr s => JStr (filter py_isdigit s)
  | v => v
  end.

(** A row reaching the grouping: its Mobile and its Calculated_Duration. *)
Definition mobile_row := (json * Z)%type.

(** [df['Mobile'] = df['Mobile'].apply(flatten_mobile)]. *)
Definition clean_mobiles (rows : list mobile_row) : list mobile_row :=
  map (fun '(m, d) => (flatten_mobile m, d)) rows.

(** [df.dropna(subset=['Mobile'])]: only a missing value ([None]) is dropped. *)
Definition dropna_mobile (rows : list mobile_row) : list mobile_row :=
  filter (fun '(m, _) => match m with JNull => false | _ => true end) rows.

(** Python's [==] between hashable group keys ([True == 1]). *)
Definition key_eqb (a b : json) : bool :=
  match a, b with
  | JNull, JNull => true
  | JBool x, JBool y => Bool.eqb x y
  | JBool x, JNum z | JNum z, JBool x => Z.eqb z (if x then 1 else 0)
  | JNum x, JNum y => Z.eqb x y
  | JStr x, JStr y => if list_eq_dec N.eq_dec x y then true else false
  | _, _ => false
  end.

Definition unhashable (v : json) : bool :=
  match v with JArr _ | JObj _ => true | _ => false end.

Fixpoint add_to_group (k : json) (v : Z) (acc : list (json * Z)) : list (json * Z) :=
  match acc with
  | [] => [(k, v)]
  | (k', t) :: r => if key_eqb k k' then (k', (t + v)%Z) :: r else (k', t) :: add_to_group k v r
  end.

(** [df.groupby(['Mobile'])['Calculated_Duration'].sum()]: one entry per
    distinct key, in order of first appearance (pandas sorts the keys; the
    order plays no role here); [None] when a key is unhashable (a
    [TypeError] in pandas). *)
Definition groupby_sum (rows : list mobile_row) : option (list (json * Z)) :=
  if existsb (fun '(m, _) => unhashable m) rows then None
  else Some (fold_left (fun acc '(m, d) => add_to_group m d acc) rows []).

(** The aggregate [overall_exp] built by [upload_resumes]. *)
Definition overall_exp (rows : list mobile_row) : option (list (json * Z)) :=
  groupby_sum (dropna_mobile (clean_mobiles rows)).

(* ------------------------------------------------------------------ *)
(** ** The [resumes] table ([database.py]) *)

(** SQLite values as bound by [sqlite3]. *)
Inductive sqlval : Type := SNull | SInt (z : Z) | SText (s : pystr).

(** Why binding a value fails: a list or a dict is not a supported type
    ([sqlite3.ProgrammingError], a [sqlite3.Error]); an [int] outside the
    signed 64-bit range raises [OverflowError], which is not a
    [sqlite3.Error]. *)
Inductive bind_error : Type := BindUnsupported | BindOverflow.

Definition INT64_MIN : Z := (- 2 ^ 63)%Z.
Definition INT64_MAX : Z := (2 ^ 63 - 1)%Z.

(** Binding a Python value. *)
Definition bind (v : json) : sqlval + bind_error :=
  match v with
  | JNull => inl SNull
  | JBool b => inl (SInt (if b then 1 else 0))
  | JNum z => if ((INT64_MIN <=? z) && (z <=? INT64_MAX))%Z then inl (SInt z) else inr BindOverflow
  | JStr s => inl (SText s)
  | JArr _ | JObj _ => inr BindUnsupported
  end.

(** The parameters are bound in order; the first one that fails raises. *)
Fixpoint bind_all (l : list json) : list sqlval + bind_error :=
  match l with
  | [] => inl []
  | v :: t => match bind v with
              | inr e => inr e
              | inl x => match bind_all t with
                         | inl xs => inl (x :: xs)
                         | inr e => inr e
                         end
              end
  end.

(** A stored row: the primary key [mobile], [created_at], and the other
    columns (name, email, graduation, company, role, calculated_duration,
    total_experience). *)
Record db_row : Type := mk_db_row {
  t_mobile : pystr; t_created_at : pystr; t_values : list sqlval }.

Definition table := list db_row.

(** Text comparison with the BINARY collation (code-point order, which is
    the order of the UTF-8 bytes). *)
Fixpoint pystr_ltb (a b : pystr) : bool :=
  match a, b with
  | [], [] => false
  | [], _ :: _ => true
  | _ :: _, [] => false
  | x :: a', y :: b' => if (x <? y)%N then true else if (y <? x)%N then false else pystr_ltb a' b'
  end.

Definition pystr_eqb (a b : pystr) : bool := if list_eq_dec N.eq_dec a b then true else false.

(** Number of [?] parameters of a statement. *)
Definition placeholders (sql : pystr) : nat := List.length (filter (fun c => (c =? 63)%N) sql).

Definition INSERT_SQL : pystr :=
  s2p "INSERT INTO resumes (name, mobile, email, graduation, company, role, calculated_duration, total_experience, created_at) VALUES (?, ?, ?, ?, ?, ?, ?, ?, ?)".

Definition UPDATE_SQL : pystr :=
  s2p "UPDATE resumes SET name = ?, email = ?, graduation = ?, company = ?, role = ?, calculated_duration = ?, total_experience = ? WHERE mobile = ?".

(** A row of the DataFrame saved by [upload_resumes].  Its Mobile is a
    string (the digits [flatten_mobile] kept), bound as TEXT.  Its
    Calculated_Duration and Total_Experience are month counts; pandas may
    hold them as whole floats, which the INTEGER columns store as the same
    integers. *)
Record upload_row : Type := mk_upload_row {
  u_Name : json; u_Mobile : pystr; u_Email : json; u_Graduation : pystr;
  u_Company : json; u_Role : json; u_Calculated_Duration : Z; u_Total_Experience : Z }.

Inductive insert_outcome : Type :=
| Inserted          (** [return True] *)
| Skipped           (** the [else] branch, [return False] *)
| InsertError       (** a [sqlite3.Error] caught, [return False] *)
| InsertOverflow.   (** an [OverflowError] raised out of [insert_resume_data] *)

(** [insert_resume_data]; [current_date] is [datetime.now().strftime('%Y-%m-%d')].
    The SELECT counts the rows with this mobile created before today; the
    INSERT checks its parameter count, binds the values, then fails on the
    primary key when a row with this mobile is already stored. *)
Definition insert_resume_data (db : table) (current_date : pystr) (row : upload_row)
    : insert_outcome * table :=
  let existing_count :=
    List.length (filter (fun r => pystr_eqb (t_mobile r) (u_Mobile row)
                                  && pystr_ltb (t_created_at r) current_date) db) in
  if Nat.eqb existing_count 0 then
    let params := [u_Name row; JStr (u_Mobile row); u_Email row; JStr (u_Graduation row);
                   u_Company row; u_Role row; JNum (u_Calculated_Duration row);
                   JNum (u_Total_Experience row); JStr current_date] in
    if negb (Nat.eqb (placeholders INSERT_SQL) (List.length params)) then (InsertError, db)
    else match bind_all [u_Name row; u_Email row; JStr (u_Graduation row); u_Company row;
                         u_Role row; JNum (u_Calculated_Duration row);
                         JNum (u_Total_Experience row)] with
         | inr BindUnsupported => (InsertError, db)
         | inr BindOverflow => (InsertOverflow, db)
         | inl vals =>
             if existsb (fun r => pystr_eqb (t_mobile r) (u_Mobile row)) db
             then (InsertError, db)
             else (Inserted, db ++ [mk_db_row (u_Mobile row) current_date vals])
         end
  else (Skipped, db).

(** A row handed to [update_resume]: a pandas Series, read by label. *)
Definition series := list (pystr * json).

Definition UPDATE_KEYS : list pystr :=
  map s2p ["Name"; "Email"; "Graduation"; "Company"; "Role"; "Calculated_Duration";
           "Total_Experience"; "Mobile"; "created_at"]%string.

(** Building the parameter tuple: [row[k]] raises [KeyError] on a missing
    label. *)
Fixpoint lookup_all (row : series) (ks : list pystr) : option (list json) :=
  match ks with
  | [] => Some []
  | k :: t => match dict_get row k, lookup_all row t with
              | Some v, Some vs => Some (v :: vs)
              | _, _ => None
              end
  end.

Inductive update_outcome : Type :=
| Updated           (** the statement ran and was committed *)
| UpdateError       (** a [sqlite3.Error] caught and printed *)
| UpdateKeyError    (** a [KeyError] raised out of [update_resume] *)
| UpdateOverflow.   (** an [OverflowError] raised out of [update_resume] *)

(** The UPDATE itself, when it can run: the first seven values replace the
    stored columns of the rows whose mobile is the eighth value. *)
Definition run_update (db : table) (vals : list sqlval) : table :=
  match vals with
  | [n; e; g; c; ro; cd; te; SText m] =>
      map (fun r => if pystr_eqb (t_mobile r) m
                    then mk_db_row (t_mobile r) (t_created_at r) [n; e; g; c; ro; cd; te]
                    else r) db
  | _ => db
  end.

(** [update_resume]. *)
Definition update_resume (db : table) (row : series) : update_outcome * table :=
  match lookup_all row UPDATE_KEYS with
  | None => (UpdateKeyError, db)
  | Some params =>
      if negb (Nat.eqb (placeholders UPDATE_SQL) (List.length params)) then (UpdateError, db)
      else match bind_all params with
           | inr BindUnsupported => (UpdateError, db)
           | inr BindOverflow => (UpdateOverflow, db)
           | inl vals => (Updated, run_update db vals)
           end
  end.

Definition has_update_fields (row : series) : bool :=
  match lookup_all row UPDATE_KEYS with Some _ => true | None => false end.

(** The spec's reading of the range splitter: the text before the first
    separator, and the text after the last one. *)
Fixpoint take_until (stop : N -> bool) (s : pystr) : pystr :=
  match s with
  | [] => []
  | x :: t => if stop x then [] else x :: take_until stop t
  end.

Definition before_first (c : N) (s : pystr) : pystr := take_until (fun y => (y =? c)%N) s.
Definition after_last (c : N) (s : pystr) : pystr := rev (take_until (fun y => (y =? c)%N) (rev s)).

(* ------------------------------------------------------------------ *)
(** ** Cleaning the generated files ([clean_json_files]) *)

(** The text of a file as a text-mode read returns it (universal newlines
    already turned into [\n]). *)
Definition NEWLINE : N := 10.

(** [file.readlines()]: every line keeps its [\n]; the last line has none
    when the text does not end with one. *)
Fixpoint readlines (s : pystr) : list pystr :=
  match s with
  | [] => []
  | c :: t =>
      if (c =? NEWLINE)%N then [c] :: readlines t
      else match readlines t with
           | [] => [[c]]
           | h :: r => (c :: h) :: r
           end
  end.

(** [s.endswith(suffix)]. *)
Definition py_endswith (suffix s : pystr) : bool :=
  pystr_eqb (skipn (List.length s - List.length suffix) s) suffix.

(** The new content of one file: [lines[1:-1]] written back when there are
    more than two lines, the file untouched otherwise. *)
Definition clean_json_text (text : pystr) : pystr :=
  let lines := readlines text in
  if (2 <? List.length lines)%nat then List.concat (removelast (tl lines)) else text.

(** [clean_json_files] over a folder given as (file name, text) pairs. *)
Definition clean_json_files (folder : list (pystr * pystr)) : list (pystr * pystr) :=
  map (fun '(name, text) =>
         if py_endswith (s2p ".json") name then (name, clean_json_text text)
         else (name, text)) folder.

(** The file filter of [process_resume_json_files]:
    [filename.lower().endswith(('.json', '.jsonl'))]. *)
Definition has_json_ext (name : pystr) : bool :=
  py_endswith (s2p ".json") (py_lower name)
  || py_endswith (s2p ".jsonl") (py_lower name).

(** [process_resume_json_files] on a folder listing: the files the filter
    keeps go through the loop body, in listing order. *)
Definition process_resume_folder (folder : list (pystr * file_content))
    : list resume_row * list error_entry :=
  process_resume_json_files (filter (fun '(name, _) => has_json_ext name) folder).

(** A file whose processing adds an entry to [error_log]. *)
Definition file_fails (c : file_content) : bool :=
  match c with
  | FParsed (JObj d) => match snd (flatten_record d) with None => false | Some _ => true end
  | _ => true
  end.

(* ------------------------------------------------------------------ *)
(** ** Joining the totals back ([df.merge(overall_exp, on='Mobile')]) *)

(** Sum of the values whose key is [==] to [k]. *)
Definition sum_matching (k : json) (l : list (json * Z)) : Z :=
  fold_right Z.add 0%Z (map snd (filter (fun '(k', _) => key_eqb k k') l)).

(** No two entries have [==] keys. *)
Fixpoint distinct_keys (g : list (json * Z)) : bool :=
  match g with
  | [] => true
  | (k, _) :: r => forallb (fun '(k', _) => negb (key_eqb k k')) r && distinct_keys r
  end.

(** Inner merge on Mobile: each left row, with the total of every aggregate
    row whose key is [==] to its Mobile, in the order of the left rows (the
    order pandas documents for an inner merge). *)
Definition merge_totals (df : list mobile_row) (g : list (json * Z)) : list (json * Z * Z) :=
  flat_map (fun '(m, d) => map (fun '(_, t) => (m, d, t)) (filter (fun '(k, _) => key_eqb m k) g)) df.

(** The DataFrame [upload_resumes] ends with: (Mobile, Calculated_Duration,
    Total_Experience) per row; [None] when the grouping raises. *)
Definition upload_frame (rows : list mobile_row) : option (list (json * Z * Z)) :=
  match overall_exp rows with
  | None => None
  | Some g => Some (merge_totals (dropna_mobile (clean_mobiles rows)) g)
  end.

(* ------------------------------------------------------------------ *)
(** ** Saving, deleting, searching and viewing *)

(** The values [insert_resume_data] binds besides mobile and created_at. *)
Definition insert_values (row : upload_row) : list sqlval + bind_error :=
  bind_all [u_Name row; u_Email row; JStr (u_Graduation row); u_Company row;
            u_Role row; JNum (u_Calculated_Duration row); JNum (u_Total_Experience row)].

(** The [Save to Database] loop of [upload_resumes]: [insert_resume_data] on
    every row, in order, with one [current_date]; an [OverflowError] escaping
    [insert_resume_data] ends the loop, and the table is left as it is then. *)
Fixpoint save_to_database (db : table) (current_date : pystr) (rows : list upload_row) : table :=
  match rows with
  | [] => db
  | r :: t =>
      match insert_resume_data db current_date r with
      | (InsertOverflow, db') => db'
      | (_, db') => save_to_database db' current_date t
      end
  end.

(** The rows of a batch whose mobile is not in [seen] and did not occur
    earlier in the batch. *)
Fixpoint first_new (seen : list pystr) (rows : list upload_row) : list upload_row :=
  match rows with
  | [] => []
  | r :: t =>
      if existsb (pystr_eqb (u_Mobile r)) seen then first_new seen t
      else r :: first_new (seen ++ [u_Mobile r]) t
  end.

(** The stored form of a row whose values bind. *)
Definition stored_row (current_date : pystr) (row : upload_row) : db_row :=
  mk_db_row (u_Mobile row) current_date
    (match insert_values row with inl v => v | inr _ => [] end).

(** [delete_resume]: [DELETE FROM resumes WHERE mobile = ?] with a string. *)
Definition delete_resume (db : table) (mobile : pystr) : table :=
  filter (fun r => negb (pystr_eqb (t_mobile r) mobile)) db.

(** One optional condition of [search_resumes]: added when the value is a
    non-empty string. *)
Definition add_condition (acc : pystr * list pystr) (value clause param : pystr)
    : pystr * list pystr :=
  match value with
  | [] => acc
  | _ => (fst acc ++ clause, snd acc ++ [param])
  end.

Definition PERCENT : pystr := [37%N].

(** The statement and parameters [search_resumes] hands to [read_sql_query]. *)
Definition search_query (name company graduation created_at : pystr) : pystr * list pystr :=
  let acc := (s2p "SELECT * FROM resumes WHERE 1=1", []) in
  let acc := add_condition acc name (s2p " AND name LIKE ?") (PERCENT ++ name ++ PERCENT) in
  let acc := add_condition acc company (s2p " AND company LIKE ?") (PERCENT ++ company ++ PERCENT) in
  let acc := add_condition acc graduation (s2p " AND graduation LIKE ?") (PERCENT ++ graduation ++ PERCENT) in
  add_condition acc created_at (s2p " AND created_at >= ?") created_at.

Fixpoint suffixes (s : pystr) : list pystr :=
  match s with
  | [] => [[]]
  | _ :: t => s :: suffixes t
  end.

(** SQLite's [LIKE] without [ESCAPE]: [%] matches any run, [_] any one
    character, other characters match up to ASCII case. *)
Fixpoint like (p s : pystr) : bool :=
  match p with
  | [] => match s with [] => true | _ => false end
  | c :: p' =>
      if (c =? 37)%N then existsb (like p') (suffixes s)
      else match s with
           | [] => false
           | x :: s' => ((c =? 95)%N || (lower_char c =? lower_char x)%N) && like p' s'
           end
  end.

(** The text of a stored TEXT-column value; [NULL] has none. *)
Definition sql_text (v : sqlval) : option pystr :=
  match v with SNull => None | SInt z => Some (str_of_Z z) | SText s => Some s end.

(** [column LIKE pattern] on the i-th of the stored values (0: name,
    2: graduation, 3: company); [NULL LIKE ...] is not true. *)
Definition like_col (r : db_row) (i : nat) (pattern : pystr) : bool :=
  match sql_text (nth i (t_values r) SNull) with
  | None => false
  | Some s => like pattern s
  end.

Definition like_filter (value : pystr) (r : db_row) (i : nat) : bool :=
  match value with
  | [] => true
  | _ => like_col r i (PERCENT ++ value ++ PERCENT)
  end.

(** The rows [search_resumes] returns, in table order, for the three filters
    [search_resume_page] passes ([created_at] is left empty there). *)
Definition search_resumes (db : table) (name company graduation : pystr) : table :=
  filter (fun r => like_filter name r 0 && like_filter company r 3 && like_filter graduation r 2) db.

(** The column labels of a [SELECT *] over the table of [create_table]. *)
Definition RESUMES_COLUMNS : list pystr :=
  map s2p ["name"; "mobile"; "email"; "graduation"; "company"; "role";
           "calculated_duration"; "total_experience"; "created_at"]%string.

Record frame : Type := mk_frame { f_columns : list pystr; f_rows : table }.

(** [fetch_resumes] on an existing table. *)
Definition fetch_resumes (db : table) : frame := mk_frame RESUMES_COLUMNS db.

Inductive view_outcome : Type :=
| ViewKeyError                 (** [df['Mobile']] raised [KeyError] *)
| ViewEditor (df : frame).     (** the editor, the update and delete buttons are reached *)

(** [view_resumes] up to [st.data_editor]: [df['Mobile']] looks the label up
    among the columns, case-sensitively. *)
Definition view_resumes (db : table) : view_outcome :=
  let df := fetch_resumes db in
  if existsb (pystr_eqb (s2p "Mobile")) (f_columns df) then ViewEditor df else ViewKeyError.

(* ================================================================== *)
(** * Proofs *)

(** ** Stripping and flattening *)

Lemma lstrip_by_app_all (f : N -> bool) (p s : pystr) :
  forallb f p = true -> lstrip_by f (p ++ s) = lstrip_by f s.
Proof.
  induction p as [|x p IH]; simpl; [reflexivity|].
  intros H; apply andb_prop in H as [Hx Hp]; rewrite Hx; auto.
Qed.

Lemma lstrip_by_keep (f : N -> bool) (x : N) (s : pystr) : f x = false -> lstrip_by f (x :: s) = x :: s.
Proof. intros H; simpl; rewrite H; reflexivity. Qed.

Lemma lstrip_by_all (f : N -> bool) (d : pystr) : forallb f d = true -> lstrip_by f d = [].
Proof. intros H; rewrite <- (app_nil_r d), lstrip_by_app_all; auto. Qed.

Lemma lstrip_by_app_some (f : N -> bool) (d p : pystr) :
  existsb (fun c => negb (f c)) d = true -> lstrip_by f (d ++ p) = lstrip_by f d ++ p.
Proof.
  induction d as [|x d IH]; simpl; [discriminate|].
  destruct (f x); simpl; auto.
Qed.

Lemma existsb_negb_forallb (f : N -> bool) (d : pystr) :
  existsb (fun c => negb (f c)) d = false -> forallb f d = true.
Proof.
  induction d as [|x d IH]; simpl; [reflexivity|].
  destruct (f x); simpl; auto; discriminate.
Qed.

Lemma rstrip_by_app_all (f : N -> bool) (s p : pystr) :
  forallb f p = true -> rstrip_by f (s ++ p) = rstrip_by f s.
Proof.
  intros H; unfold rstrip_by; rewrite rev_app_distr, lstrip_by_app_all; auto.
  apply forallb_forall; intros x Hx; apply (proj1 (forallb_forall f p) H), in_rev; auto.
Qed.

Lemma rstrip_by_keep (f : N -> bool) (s : pystr) (x : N) : f x = false -> rstrip_by f (s ++ [x]) = s ++ [x].
Proof.
  intros H; unfold rstrip_by; rewrite rev_app_distr.
  change (rev [x] ++ rev s) with (x :: rev s).
  rewrite lstrip_by_keep by exact H; simpl; rewrite rev_involutive; reflexivity.
Qed.

Lemma emit_rows_dicts d l :
  forallb is_dict l = true ->
  emit_rows d l = (map (fun v => experience_row d (dict_of v)) l, None).
Proof.
  induction l as [|v l IH]; simpl; [reflexivity|].
  destruct v; try discriminate; intros H; rewrite IH; auto.
Qed.

Lemma experience_row_identity d kv : carries_identity d (experience_row d kv).
Proof. repeat split. Qed.

Lemma placeholder_row_identity d : carries_identity d (placeholder_row d).
Proof. repeat split. Qed.

(** C1: a record with a non-empty list of work-experience dicts gives one row
    per entry, all carrying the record's Name, Mobile, Email and Graduation;
    a record whose [Work Experiences] is absent or empty gives exactly one row,
    with empty Company, Role and Duration. *)
Theorem flatten_record_row_count (resume_data : list (pystr * json)) (l : list json) :
  (dict_get resume_data K_WORK = Some (JArr l) -> l <> [] -> forallb is_dict l = true ->
   snd (flatten_record resume_data) = None /\
   List.length (fst (flatten_record resume_data)) = List.length l /\
   Forall (carries_identity resume_data) (fst (flatten_record resume_data))) /\
  (dict_get resume_data K_WORK = None \/ dict_get resume_data K_WORK = Some (JArr []) ->
   exists r, flatten_record resume_data = ([r], None) /\ carries_identity resume_data r /\
             Company r = EMPTY /\ Role r = EMPTY /\ Duration r = EMPTY).
Proof.
  unfold flatten_record, get_or; split.
  - intros Hw Hne Hd; rewrite Hw.
    destruct l as [|v l']; [congruence|]; simpl py_truthy; cbv iota beta.
    simpl py_iter; cbv iota beta.
    rewrite emit_rows_dicts by exact Hd; cbn [fst snd].
    split; [reflexivity | split; [apply length_map |]].
    apply Forall_forall; intros r Hr; apply in_map_iff in Hr as [w [<- _]].
    apply experience_row_identity.
  - intros [Hw|Hw]; rewrite Hw; simpl;
      exists (placeholder_row resume_data); repeat split.
Qed.

Lemma flatten_record_row_count_witness :
  (snd (flatten_record [(K_NAME, JStr (s2p "Ann")); (K_MOBILE, JStr (s2p "987-654-3210"));
     (K_WORK, JArr [JObj [(K_COMPANY, JStr (s2p "Acme"))]; JObj []])]) = None /\
   List.length (fst (flatten_record [(K_NAME, JStr (s2p "Ann")); (K_MOBILE, JStr (s2p "987-654-3210"));
     (K_WORK, JArr [JObj [(K_COMPANY, JStr (s2p "Acme"))]; JObj []])])) = 2%nat) /\
  exists r, flatten_record [(K_NAME, JStr (s2p "Ann"))] = ([r], None) /\ Company r = EMPTY.
Proof.
  destruct (flatten_record_row_count
              [(K_NAME, JStr (s2p "Ann")); (K_MOBILE, JStr (s2p "987-654-3210"));
               (K_WORK, JArr [JObj [(K_COMPANY, JStr (s2p "Acme"))]; JObj []])]
              [JObj [(K_COMPANY, JStr (s2p "Acme"))]; JObj []]) as [H1 _].
  destruct H1 as [He [Hl _]]; [reflexivity | discriminate | reflexivity |].
  destruct (flatten_record_row_count [(K_NAME, JStr (s2p "Ann"))] []) as [_ H2].
  destruct H2 as [r [Hr [_ [Hc _]]]]; [left; reflexivity|].
  split; [split; [exact He | exact Hl] | exists r; split; assumption].
Defined.

Lemma graduation_parts_empty resume_data :
  dict_get resume_data K_GRADUATION = None \/
  is_dict (get_or resume_data K_GRADUATION (JObj [])) = false ->
  graduation_degree resume_data = EMPTY /\ graduation_institution resume_data = EMPTY.
Proof.
  unfold graduation_degree, graduation_institution, graduation_info.
  intros [H|H].
  - unfold get_or; rewrite H; split; reflexivity.
  - destruct (get_or resume_data K_GRADUATION (JObj [])) as [| | | | |kv];
      try (destruct (py_truthy _); split; reflexivity).
    discriminate.
Qed.

Lemma graduation_str_empty resume_data :
  dict_get resume_data K_GRADUATION = None \/
  is_dict (get_or resume_data K_GRADUATION (JObj [])) = false ->
  graduation_str resume_data = [].
Proof.
  intros H; apply graduation_parts_empty in H as [Hd Hi].
  unfold graduation_str; rewrite Hd, Hi; reflexivity.
Qed.

(** C2 (as stated it fails): a work-experience entry that is not a dict makes
    [experience.get] raise [AttributeError] (caught only by the per-file
    handler), and a present sub-field of another type, here a numeric Name, is
    copied into the row instead of becoming the empty string. *)
Lemma flatten_record_not_total :
  snd (flatten_record [(K_WORK, JArr [JStr (s2p "Acme")])]) = Some AttributeError /\
  map Name (fst (flatten_record [(K_NAME, JNum 5)])) = [JNum 5] /\
  JNum 5 <> EMPTY.
Proof. split; [reflexivity | split; [reflexivity | discriminate]]. Qed.

(** C2 (amended): when [Work Experiences] is absent, falsy or a list of dicts,
    flattening raises nothing and yields at least one row.  Every row carries
    the record's Name, Mobile and Email and its Graduation string.  A falsy or
    absent list gives the one row with empty Company, Role and Duration; a
    list of dicts gives one row per entry, in order, whose Company, Role and
    Duration are that entry's values as present (of whatever type) and the
    empty string when absent.  An absent or non-dict Graduation gives the
    empty display string. *)
Theorem flatten_record_total_on_dict_entries (resume_data : list (pystr * json)) :
  work_well_formed resume_data = true ->
  snd (flatten_record resume_data) = None /\
  fst (flatten_record resume_data) <> [] /\
  Forall (carries_identity resume_data) (fst (flatten_record resume_data)) /\
  ((py_truthy (get_or resume_data K_WORK JNull) = false /\
    exists r, fst (flatten_record resume_data) = [r] /\
              Company r = EMPTY /\ Role r = EMPTY /\ Duration r = EMPTY) \/
   (exists l, get_or resume_data K_WORK JNull = JArr l /\ l <> [] /\
      Forall2 (fun e r => exists kv, e = JObj kv /\
                 Company r = get_or kv K_COMPANY EMPTY /\
                 Role r = get_or kv K_ROLE EMPTY /\
                 Duration r = get_or kv K_DURATION EMPTY)
              l (fst (flatten_record resume_data)))) /\
  (dict_get resume_data K_GRADUATION = None \/
   is_dict (get_or resume_data K_GRADUATION (JObj [])) = false ->
   graduation_str resume_data = []).
Proof.
  intros Hw.
  assert (Hg := graduation_str_empty resume_data).
  unfold work_well_formed in Hw. unfold flatten_record.
  destruct (py_truthy (get_or resume_data K_WORK JNull)) eqn:Ht.
  - unfold get_or in Ht |- *.
    destruct (dict_get resume_data K_WORK) as [v|]; [|discriminate].
    rewrite Ht in Hw. simpl in Hw.
    destruct v as [| | | |l|]; try discriminate.
    destruct l as [|v0 l0]; [discriminate|].
    cbn [py_iter]. rewrite emit_rows_dicts by exact Hw. cbn [fst snd].
    split; [reflexivity|]. split; [discriminate|]. split.
    + apply Forall_forall; intros r Hr; apply in_map_iff in Hr as [w [<- _]].
      apply experience_row_identity.
    + split; [|exact Hg]. right. exists (v0 :: l0). split; [reflexivity|]. split; [discriminate|].
      clear Ht. induction (v0 :: l0) as [|w l IH]; cbn [map]; constructor.
      * simpl in Hw. destruct w as [| | | | |kv]; try discriminate.
        exists kv. repeat split.
      * apply IH. simpl in Hw. apply andb_prop in Hw. apply Hw.
  - cbn [fst snd]. split; [reflexivity|]. split; [discriminate|]. split.
    + constructor; [apply placeholder_row_identity | constructor].
    + split; [|exact Hg]. left. split; [reflexivity|].
      exists (placeholder_row resume_data). repeat split.
Qed.

Lemma flatten_record_total_on_dict_entries_witness :
  snd (flatten_record [(K_NAME, JNum 5); (K_WORK, JArr [JObj [(K_COMPANY, JNum 7)]; JObj []])]) = None /\
  map Company (fst (flatten_record [(K_NAME, JNum 5); (K_WORK, JArr [JObj [(K_COMPANY, JNum 7)]; JObj []])]))
  = [JNum 7; EMPTY].
Proof.
  destruct (flatten_record_total_on_dict_entries
              [(K_NAME, JNum 5); (K_WORK, JArr [JObj [(K_COMPANY, JNum 7)]; JObj []])])
    as [H1 [_ [_ [H4 _]]]]; [reflexivity|].
  split; [exact H1|].
  destruct H4 as [[Ht _]|[l [Hl [_ H2]]]]; [discriminate|].
  injection Hl as <-.
  revert H2. generalize (fst (flatten_record [(K_NAME, JNum 5); (K_WORK, JArr [JObj [(K_COMPANY, JNum 7)]; JObj []])])).
  intros rows H2.
  inversion H2 as [|e1 r1 l1 rs1 [kv1 [E1 [C1 _]]] H3]; subst.
  inversion H3 as [|e2 r2 l2 rs2 [kv2 [E2 [C2 _]]] H5]; subst.
  inversion H5; subst.
  injection E1 as <-. injection E2 as <-.
  cbn [map]. rewrite C1, C2. reflexivity.
Defined.

(** C5 (as stated it fails): [strip(' -')] removes every leading and trailing
    space and hyphen, not only the separator; a degree [B.Sc - ] with no
    institution is displayed [B.Sc], not the degree itself. *)
Lemma graduation_str_strips_part :
  graduation_str [(K_GRADUATION, JObj [(K_DEGREE, JStr (s2p "B.Sc - "))])] = s2p "B.Sc" /\
  joined_parts (s2p "B.Sc - ") [] = s2p "B.Sc - " /\
  graduation_str [(K_GRADUATION, JObj [(K_DEGREE, JStr (s2p "B.Sc - "))])]
    <> joined_parts (s2p "B.Sc - ") [].
Proof. split; [reflexivity | split; [reflexivity | vm_compute; discriminate]]. Qed.

Lemma strip_chars_app_all (cs d p : pystr) :
  forallb (fun c => mem c cs) p = true -> py_strip_chars cs (d ++ p) = py_strip_chars cs d.
Proof.
  intros Hp; unfold py_strip_chars.
  destruct (existsb (fun c => negb (mem c cs)) d) eqn:E.
  - rewrite lstrip_by_app_some by exact E; apply rstrip_by_app_all; exact Hp.
  - apply existsb_negb_forallb in E.
    rewrite (lstrip_by_all _ (d ++ p)), (lstrip_by_all _ d); [reflexivity | exact E |].
    rewrite forallb_app, E, Hp; reflexivity.
Qed.

Lemma strip_chars_all_app (cs p s : pystr) :
  forallb (fun c => mem c cs) p = true -> py_strip_chars cs (p ++ s) = py_strip_chars cs s.
Proof. intros Hp; unfold py_strip_chars; rewrite lstrip_by_app_all by exact Hp; reflexivity. Qed.

(** C5 (amended): with Degree and Institution strings (absent ones read as the
    empty string), the display string is [Degree - Institution] with all
    leading and trailing spaces and hyphens removed: the institution so
    stripped when the degree is empty, the degree so stripped when the
    institution is empty, the empty string when both are empty, exactly
    [Degree - Institution] when both are non-empty and neither the degree
    starts nor the institution ends with a space or hyphen; an absent or
    non-dict Graduation gives the empty string. *)
Theorem graduation_str_collapse (resume_data : list (pystr * json)) (degree institution : pystr) :
  graduation_degree resume_data = JStr degree ->
  graduation_institution resume_data = JStr institution ->
  (degree = [] -> graduation_str resume_data = py_strip_chars GRAD_SEP institution) /\
  (institution = [] -> graduation_str resume_data = py_strip_chars GRAD_SEP degree) /\
  (degree = [] -> institution = [] -> graduation_str resume_data = []) /\
  (degree <> [] -> institution <> [] ->
   mem (hd 0%N degree) GRAD_SEP = false -> mem (last institution 0%N) GRAD_SEP = false ->
   graduation_str resume_data = degree ++ s2p " - " ++ institution) /\
  (dict_get resume_data K_GRADUATION = None \/
   is_dict (get_or resume_data K_GRADUATION (JObj [])) = false ->
   graduation_str resume_data = []).
Proof.
  intros Hd Hi; unfold graduation_str; rewrite Hd, Hi; cbn [py_str].
  split; [|split; [|split; [|split]]].
  - intros ->; cbn [app]; apply strip_chars_all_app; reflexivity.
  - intros ->; rewrite app_nil_r; apply strip_chars_app_all; reflexivity.
  - intros -> ->; reflexivity.
  - intros Hdn Hin Hx Hy.
    destruct degree as [|x d']; [congruence|].
    destruct (exists_last Hin) as [i' [y ->]].
    rewrite last_last in Hy; simpl hd in Hx.
    unfold py_strip_chars; cbn [app]; rewrite lstrip_by_keep by exact Hx.
    replace (x :: d' ++ s2p " - " ++ i' ++ [y]) with ((x :: d' ++ s2p " - " ++ i') ++ [y])
      by (cbn [app]; rewrite <- !app_assoc; reflexivity).
    apply rstrip_by_keep; exact Hy.
  - intros H; pose proof (graduation_str_empty resume_data H) as E.
    unfold graduation_str in E; rewrite Hd, Hi in E; exact E.
Qed.

Lemma graduation_str_collapse_witness :
  graduation_str [(K_GRADUATION, JObj [(K_DEGREE, JStr (s2p "BSc"));
                                       (K_INSTITUTION, JStr (s2p "MIT"))])]
  = s2p "BSc - MIT".
Proof.
  destruct (graduation_str_collapse
              [(K_GRADUATION, JObj [(K_DEGREE, JStr (s2p "BSc"));
                                    (K_INSTITUTION, JStr (s2p "MIT"))])]
              (s2p "BSc") (s2p "MIT") eq_refl eq_refl) as [_ [_ [_ [H _]]]].
  apply H; [discriminate | discriminate | reflexivity | reflexivity].
Defined.

(** ** The month count *)







(** ** Splitting a range *)

Lemma py_split_nonnil (c : N) (t : pystr) : py_split c t <> [].
Proof.
  destruct t as [|x t]; simpl; [discriminate|].
  destruct (x =? c)%N; [discriminate|]; destruct (py_split c t); discriminate.
Qed.

Lemma mem_existsb (c : N) (t : pystr) : mem c t = existsb (fun y => (y =? c)%N) t.
Proof. induction t as [|x t IH]; simpl; [reflexivity|]; rewrite IH; reflexivity. Qed.

Lemma existsb_rev (p : N -> bool) (t : pystr) : existsb p (rev t) = existsb p t.
Proof.
  induction t as [|x t IH]; simpl; [reflexivity|].
  rewrite existsb_app, IH; simpl; rewrite orb_false_r, orb_comm; reflexivity.
Qed.

Lemma mem_false_split (c : N) (t : pystr) : mem c t = false -> py_split c t = [t].
Proof.
  induction t as [|x t IH]; simpl; [reflexivity|].
  intros H; apply orb_false_iff in H as [H1 H2]; rewrite H1, IH by exact H2; reflexivity.
Qed.

Lemma mem_true_split (c : N) (t : pystr) :
  mem c t = true -> exists h rs, py_split c t = h :: rs /\ rs <> [].
Proof.
  induction t as [|x t IH]; simpl; [discriminate|].
  intros H; destruct (x =? c)%N eqn:E.
  - exists [], (py_split c t); split; [reflexivity | apply py_split_nonnil].
  - destruct (IH H) as [h [rs [Hs Hne]]]; rewrite Hs; exists (x :: h), rs; auto.
Qed.

Lemma take_until_app_found (p : N -> bool) (l m : pystr) :
  existsb p l = true -> take_until p (l ++ m) = take_until p l.
Proof.
  induction l as [|x l IH]; simpl; [discriminate|].
  destruct (p x); simpl; [reflexivity|]; intros H; rewrite IH; auto.
Qed.

Lemma take_until_app_none (p : N -> bool) (l m : pystr) :
  existsb p l = false -> take_until p (l ++ m) = l ++ take_until p m.
Proof.
  induction l as [|x l IH]; simpl; [reflexivity|].
  destruct (p x); simpl; [discriminate|]; intros H; rewrite IH; auto.
Qed.

Lemma take_until_none (p : N -> bool) (l : pystr) :
  existsb p l = false -> take_until p l = l.
Proof. intros H; rewrite <- (app_nil_r l) at 1; rewrite take_until_app_none by exact H; apply app_nil_r. Qed.

Lemma last_cons_nonnil {A} (a : A) (l : list A) (d : A) : l <> [] -> last (a :: l) d = last l d.
Proof. destruct l; [congruence | reflexivity]. Qed.

Lemma first_seg_split (c : N) (s : pystr) : first_seg (py_split c s) = before_first c s.
Proof.
  unfold first_seg, before_first; induction s as [|x t IH]; simpl; [reflexivity|].
  destruct (x =? c)%N; [reflexivity|].
  destruct (py_split c t) as [|h rs] eqn:E; [exfalso; apply (py_split_nonnil c t E)|].
  simpl in *; rewrite IH; reflexivity.
Qed.

Lemma last_seg_split (c : N) (s : pystr) : last_seg (py_split c s) = after_last c s.
Proof.
  unfold last_seg, after_last; induction s as [|x t IH]; [reflexivity|].
  simpl py_split; simpl rev.
  destruct (x =? c)%N eqn:E.
  - rewrite last_cons_nonnil by apply py_split_nonnil; rewrite IH.
    destruct (existsb (fun y => (y =? c)%N) (rev t)) eqn:F.
    + rewrite take_until_app_found by exact F; reflexivity.
    + rewrite take_until_app_none by exact F; simpl; rewrite E, app_nil_r.
      rewrite take_until_none by exact F; reflexivity.
  - destruct (mem c t) eqn:M.
    + destruct (mem_true_split c t M) as [h [rs [Hs Hne]]]; rewrite Hs in *.
      rewrite last_cons_nonnil by exact Hne; rewrite last_cons_nonnil in IH by exact Hne.
      rewrite IH, take_until_app_found; [reflexivity|].
      rewrite existsb_rev, <- mem_existsb; exact M.
    + rewrite mem_false_split by exact M; simpl.
      rewrite take_until_app_none by (rewrite existsb_rev, <- mem_existsb; exact M).
      simpl; rewrite E, rev_app_distr, rev_involutive; reflexivity.
Qed.

(** C6: a Duration with an en-dash gives as start token the text before the
    first en-dash and as end token the text after the last one, both
    stripped; otherwise the same with hyphens; with neither, the whole text is
    the start token and there is no end token. *)
Theorem split_range_tokens (x : pystr) :
  start_arg x = (if mem EN_DASH x then Some (py_strip (before_first EN_DASH x))
                 else if mem HYPHEN x then Some (py_strip (before_first HYPHEN x))
                 else Some x) /\
  end_arg x = (if mem EN_DASH x then Some (py_strip (after_last EN_DASH x))
               else if mem HYPHEN x then Some (py_strip (after_last HYPHEN x))
               else None).
Proof.
  unfold start_arg, end_arg; rewrite !first_seg_split, !last_seg_split; split; reflexivity.
Qed.

(** ** The date-token parser *)

(** C7: a token that, stripped and lower-cased, is [present], [running] or
    [current] parses to the current date; a missing token ([None]) and the
    empty string parse to unresolved. *)
Theorem parse_date_literals_and_empty (now : date) :
  (forall (s : pystr) (w : pystr), In w literal_now -> py_lower (py_strip s) = w ->
     parse_date now (Some s) = Some now) /\
  parse_date now None = None /\
  parse_date now (Some []) = None.
Proof.
  split; [|split; reflexivity].
  intros s w Hw Hs.
  assert (Hne : s <> []).
  { intros ->; subst w; simpl in Hw; vm_compute in Hw; intuition discriminate. }
  unfold parse_date; destruct s as [|c t]; [congruence|].
  rewrite Hs.
  replace (existsb _ literal_now) with true; [reflexivity|].
  symmetry; apply existsb_exists; exists w; split; [exact Hw|].
  destruct (list_eq_dec N.eq_dec w w); congruence.
Qed.

Lemma parse_date_literals_and_empty_witness :
  parse_date (mk_date 2026 10 15) (Some (s2p "  PreSent ")) = Some (mk_date 2026 10 15) /\
  parse_date (mk_date 2026 10 15) None = None.
Proof.
  destruct (parse_date_literals_and_empty (mk_date 2026 10 15)) as [H [H0 _]].
  split; [apply (H (s2p "  PreSent ") (s2p "present")); [left; reflexivity | reflexivity]
         | exact H0].
Defined.

(** ** Splitting happens before parsing *)

Lemma mem_take_until (c : N) (s : pystr) : mem c (before_first c s) = false.
Proof.
  unfold before_first; induction s as [|x t IH]; simpl; [reflexivity|].
  destruct (x =? c)%N eqn:E; simpl; [reflexivity|]; rewrite E, IH; reflexivity.
Qed.

Lemma mem_rev (c : N) (s : pystr) : mem c (rev s) = mem c s.
Proof. rewrite !mem_existsb; apply existsb_rev. Qed.

Lemma mem_lstrip (f : N -> bool) (c : N) (s : pystr) :
  mem c (lstrip_by f s) = true -> mem c s = true.
Proof.
  induction s as [|x t IH]; simpl; [discriminate|].
  destruct (f x); [intros H; rewrite IH by exact H; apply orb_true_r | simpl; auto].
Qed.

Lemma mem_py_strip (c : N) (s : pystr) : mem c s = false -> mem c (py_strip s) = false.
Proof.
  intros H; unfold py_strip, rstrip_by; rewrite mem_rev.
  destruct (mem c (lstrip_by py_isspace (rev (lstrip_by py_isspace s)))) eqn:E; [|reflexivity].
  apply mem_lstrip in E; rewrite mem_rev in E; apply mem_lstrip in E; congruence.
Qed.

Lemma mem_after_last (c : N) (s : pystr) : mem c (after_last c s) = false.
Proof.
  unfold after_last; rewrite mem_rev; apply (mem_take_until c (rev s)).
Qed.

(** C10: a Duration holding a hyphen or an en-dash never reaches [parse_date]
    whole: the start and the end dates are parsed from the stripped text
    before the first and after the last separator (en-dash first), and
    neither piece is the Duration itself. *)
Theorem duration_split_before_parse (now : date) (x : pystr) :
  mem EN_DASH x = true \/ mem HYPHEN x = true ->
  let d := if mem EN_DASH x then EN_DASH else HYPHEN in
  Start_Date now x = parse_date now (Some (py_strip (before_first d x))) /\
  End_Date now x = parse_date now (Some (py_strip (after_last d x))) /\
  py_strip (before_first d x) <> x /\
  py_strip (after_last d x) <> x.
Proof.
  intros Hx d.
  assert (Hd : mem d x = true)
    by (subst d; destruct (mem EN_DASH x) eqn:E; [exact E | destruct Hx; congruence]).
  unfold Start_Date, End_Date.
  destruct (split_range_tokens x) as [Hs He]; rewrite Hs, He.
  split; [|split; [|split]].
  - subst d; destruct (mem EN_DASH x); [reflexivity|].
    destruct Hx as [Hx|Hx]; [discriminate|]; rewrite Hx; reflexivity.
  - subst d; destruct (mem EN_DASH x); [reflexivity|].
    destruct Hx as [Hx|Hx]; [discriminate|]; rewrite Hx; reflexivity.
  - intros Heq; pose proof (mem_py_strip d _ (mem_take_until d x)) as M.
    rewrite Heq in M; congruence.
  - intros Heq; pose proof (mem_py_strip d _ (mem_after_last d x)) as M.
    rewrite Heq in M; congruence.
Qed.

(** On [03-2019], a date the free-standing parser reads as March 2019 with
    the [%m-%Y] format, the pipeline parses [03] (unresolved) and [2019]. *)
Lemma duration_split_before_parse_witness :
  Start_Date (mk_date 2026 10 15) (s2p "03-2019")
    = parse_date (mk_date 2026 10 15) (Some (s2p "03")) /\
  Start_Date (mk_date 2026 10 15) (s2p "03-2019") = None /\
  End_Date (mk_date 2026 10 15) (s2p "03-2019") = Some (mk_date 2019 1 1) /\
  parse_date (mk_date 2026 10 15) (Some (s2p "03-2019")) = Some (mk_date 2019 3 1).
Proof.
  destruct (duration_split_before_parse (mk_date 2026 10 15) (s2p "03-2019"))
    as [Hs [He _]]; [right; reflexivity|].
  split; [exact Hs|].
  split; [rewrite Hs; vm_compute; reflexivity|].
  split; [rewrite He; vm_compute; reflexivity | vm_compute; reflexivity].
Defined.

(** ** Aggregation by mobile *)

(** C3 (the code misses it): a row whose Mobile has no digit (here [N/A] and
    an absent Mobile, read as the empty string) keeps the key [""] after
    [flatten_mobile]; [dropna] removes only missing values, so these rows are
    grouped together under the empty key and summed, while the two spellings
    of [987-654-3210] do share one entry. *)
Theorem overall_exp_groups_empty_mobile :
  overall_exp [(JStr (s2p "987-654-3210"), 5%Z); (JStr (s2p "9876543210"), 7%Z);
               (JStr (s2p "N/A"), 12%Z); (JStr [], 24%Z)]
  = Some [(JStr (s2p "9876543210"), 12%Z); (JStr [], 36%Z)].
Proof. vm_compute; reflexivity. Qed.

(** ** The insert policy *)

Lemma pystr_eqb_refl (a : pystr) : pystr_eqb a a = true.
Proof. unfold pystr_eqb; destruct (list_eq_dec N.eq_dec a a); congruence. Qed.

Lemma pystr_eqb_eq (a b : pystr) : pystr_eqb a b = true <-> a = b.
Proof. unfold pystr_eqb; destruct (list_eq_dec N.eq_dec a b); split; congruence. Qed.

Lemma filter_length_nonzero {A} (f : A -> bool) (l : list A) :
  Nat.eqb (List.length (filter f l)) 0 = false <-> exists x, In x l /\ f x = true.
Proof.
  rewrite Nat.eqb_neq; split.
  - intros H; destruct (filter f l) as [|y ys] eqn:E; [contradiction|].
    exists y; apply filter_In; rewrite E; left; reflexivity.
  - intros [x Hx] H; apply length_zero_iff_nil in H.
    apply (filter_In f x l) in Hx; rewrite H in Hx; destruct Hx.
Qed.

Lemma insert_sql_placeholders : placeholders INSERT_SQL = 9%nat.
Proof. vm_compute; reflexivity. Qed.

(** C8: [insert_resume_data] takes its skip branch exactly when a stored row
    with the same mobile was created before the current date, and then
    leaves the table as it is; when a row with the same mobile created on the
    current date is stored, the table is left as it is too (the INSERT fails
    on the primary key and the error is caught). *)
Theorem insert_resume_data_policy (db : table) (current_date : pystr) (row : upload_row) :
  (fst (insert_resume_data db current_date row) = Skipped <->
   exists r, In r db /\ t_mobile r = u_Mobile row /\
             pystr_ltb (t_created_at r) current_date = true) /\
  (fst (insert_resume_data db current_date row) = Skipped ->
   snd (insert_resume_data db current_date row) = db) /\
  ((exists r, In r db /\ t_mobile r = u_Mobile row /\ t_created_at r = current_date) ->
   snd (insert_resume_data db current_date row) = db).
Proof.
  unfold insert_resume_data; rewrite insert_sql_placeholders; cbn [List.length Nat.eqb negb].
  set (f := fun r => pystr_eqb (t_mobile r) (u_Mobile row)
                     && pystr_ltb (t_created_at r) current_date).
  destruct (Nat.eqb (List.length (filter f db)) 0) eqn:C.
  - split; [split|split].
    + destruct (bind_all _) as [v|[|]]; [destruct (existsb _ db)| |]; discriminate.
    + intros [r [Hr [Hm Hl]]].
      assert (Hc : Nat.eqb (List.length (filter f db)) 0 = false).
      { apply filter_length_nonzero; exists r; split; [exact Hr|].
        unfold f; rewrite Hm, pystr_eqb_refl, Hl; reflexivity. }
      congruence.
    + destruct (bind_all _) as [v|[|]]; [destruct (existsb _ db)| |]; discriminate.
    + intros [r [Hr [Hm _]]].
      destruct (bind_all _) as [v|[|]]; [|reflexivity|reflexivity].
      replace (existsb _ db) with true; [reflexivity|].
      symmetry; apply existsb_exists; exists r; split; [exact Hr|].
      rewrite Hm; apply pystr_eqb_refl.
  - split; [split|split]; try reflexivity.
    + intros _; apply filter_length_nonzero in C as [r [Hr Hf]].
      unfold f in Hf; apply andb_prop in Hf as [Hm Hl].
      apply pystr_eqb_eq in Hm; exists r; auto.
Qed.

Lemma insert_resume_data_policy_witness :
  snd (insert_resume_data [mk_db_row (s2p "9876543210") (s2p "2026-10-15") []]
         (s2p "2026-10-15")
         (mk_upload_row (JStr (s2p "Ann")) (s2p "9876543210") EMPTY [] EMPTY EMPTY 12 12))
  = [mk_db_row (s2p "9876543210") (s2p "2026-10-15") []] /\
  fst (insert_resume_data [mk_db_row (s2p "9876543210") (s2p "2026-10-15") []]
         (s2p "2026-10-15")
         (mk_upload_row (JStr (s2p "Ann")) (s2p "9876543210") EMPTY [] EMPTY EMPTY 12 12))
  <> Skipped.
Proof.
  destruct (insert_resume_data_policy [mk_db_row (s2p "9876543210") (s2p "2026-10-15") []]
              (s2p "2026-10-15")
              (mk_upload_row (JStr (s2p "Ann")) (s2p "9876543210") EMPTY [] EMPTY EMPTY 12 12))
    as [[Hs _] [_ Hd]].
  split.
  - apply Hd; eexists; split; [left; reflexivity | split; reflexivity].
  - intros H; apply Hs in H as [r [Hr [_ Hl]]].
    destruct Hr as [<-|[]]; vm_compute in Hl; discriminate.
Defined.

(** ** The update path *)

Lemma lookup_all_length (row : series) (ks : list pystr) (vs : list json) :
  lookup_all row ks = Some vs -> List.length vs = List.length ks.
Proof.
  revert vs; induction ks as [|k ks IH]; simpl; intros vs H.
  - injection H as <-; reflexivity.
  - destruct (dict_get row k), (lookup_all row ks) as [vs'|] eqn:E; try discriminate.
    injection H as <-; simpl; rewrite (IH vs' eq_refl); reflexivity.
Qed.

Lemma update_sql_placeholders : placeholders UPDATE_SQL = 8%nat.
Proof. vm_compute; reflexivity. Qed.

(** C9 (as stated it fails): a row as read back from the table, whose labels
    are the lower-case column names, makes [row['Name']] raise [KeyError] out
    of [update_resume]; the error is not the caught [sqlite3] one. *)
Lemma update_resume_key_error :
  fst (update_resume [] [(s2p "name", JStr (s2p "Ann")); (s2p "mobile", JStr (s2p "9876543210"));
                         (s2p "created_at", JStr (s2p "2026-10-15"))]) = UpdateKeyError.
Proof. vm_compute; reflexivity. Qed.

(** C9 (amended): [update_resume] never changes the table.  A row carrying the
    nine labels it reads gets 9 values for the 8 placeholders of its UPDATE,
    which raises a [sqlite3] error that is caught; a row missing one of them
    raises [KeyError] out of [update_resume] before any statement runs. *)
Theorem update_resume_never_writes (db : table) (row : series) :
  snd (update_resume db row) = db /\
  fst (update_resume db row) = (if has_update_fields row then UpdateError else UpdateKeyError).
Proof.
  unfold update_resume, has_update_fields.
  destruct (lookup_all row UPDATE_KEYS) as [params|] eqn:E; [|split; reflexivity].
  rewrite update_sql_placeholders, (lookup_all_length _ _ _ E); split; reflexivity.
Qed.

(** ** Further properties of the pipeline *)


Lemma readlines_nil (s : pystr) : readlines s = [] -> s = [].
Proof.
  destruct s as [|c t]; simpl; [reflexivity|].
  destruct (c =? NEWLINE)%N; [discriminate|]. destruct (readlines t); discriminate.
Qed.

Lemma readlines_app_nl (a b : pystr) :
  readlines (a ++ NEWLINE :: b) = readlines (a ++ [NEWLINE]) ++ readlines b.
Proof.
  induction a as [|c a IH]; simpl.
  - reflexivity.
  - destruct (c =? NEWLINE)%N; [rewrite IH; reflexivity|].
    rewrite IH. destruct (readlines (a ++ [NEWLINE])) eqn:E.
    + apply readlines_nil in E. destruct a; discriminate.
    + reflexivity.
Qed.

Lemma readlines_noline (l : pystr) :
  mem NEWLINE l = false -> l <> [] -> readlines l = [l].
Proof.
  induction l as [|c t IH]; intros H Hne; [congruence|].
  simpl in H. apply orb_false_iff in H. destruct H as [H1 H2].
  simpl. rewrite H1. destruct t as [|c' t'].
  - reflexivity.
  - rewrite IH by (auto || discriminate). reflexivity.
Qed.

Lemma readlines_line (l : pystr) :
  mem NEWLINE l = false -> readlines (l ++ [NEWLINE]) = [l ++ [NEWLINE]].
Proof.
  induction l as [|c t IH]; intros H.
  - reflexivity.
  - simpl in H. apply orb_false_iff in H. destruct H as [H1 H2].
    simpl. rewrite H1, IH by exact H2. reflexivity.
Qed.

Lemma concat_readlines (s : pystr) : List.concat (readlines s) = s.
Proof.
  induction s as [|c t IH]; simpl; [reflexivity|].
  destruct (c =? NEWLINE)%N; simpl; [rewrite IH; reflexivity|].
  destruct (readlines t) as [|h r] eqn:E; simpl in *.
  - subst t. reflexivity.
  - rewrite IH. reflexivity.
Qed.

(** Cleaning ([clean_json_files]): a [.json] file made of a first line, a
    body ending with a newline, and a non-empty last line (with or without a
    final newline) is rewritten to exactly its body. *)
Lemma clean_json_files_strips_fences (name first b last : pystr) (trail : bool) :
  py_endswith (s2p ".json") name = true ->
  mem NEWLINE first = false -> mem NEWLINE last = false ->
  last ++ (if trail then [NEWLINE] else []) <> [] ->
  clean_json_files [(name, first ++ NEWLINE :: b ++ NEWLINE :: last ++ (if trail then [NEWLINE] else []))]
  = [(name, b ++ [NEWLINE])].
Proof.
  intros Hn Hf Hl Hne. unfold clean_json_files. cbn -[py_endswith clean_json_text app] in Hn |- *. rewrite Hn.
  unfold clean_json_text.
  assert (Hr : readlines (last ++ (if trail then [NEWLINE] else []))
               = [last ++ (if trail then [NEWLINE] else [])]).
  { destruct trail; [apply readlines_line; exact Hl|].
    rewrite app_nil_r in *. apply readlines_noline; assumption. }
  rewrite readlines_app_nl, readlines_line by exact Hf.
  rewrite readlines_app_nl, Hr.
  destruct (readlines (b ++ [NEWLINE])) as [|h r] eqn:E.
  - apply readlines_nil in E. destruct b; discriminate.
  - cbn [List.length app tl]. rewrite length_app.
    rewrite (proj2 (Nat.ltb_lt _ _)) by (simpl; lia).
    rewrite app_comm_cons, removelast_last, <- E, concat_readlines. reflexivity.
Qed.

Lemma clean_json_files_strips_fences_witness :
  clean_json_files [(s2p "cv.json",
                     s2p "```json" ++ NEWLINE :: s2p "{}" ++ NEWLINE :: s2p "```"
                       ++ (if false then [NEWLINE] else []))]
  = [(s2p "cv.json", s2p "{}" ++ [NEWLINE])].
Proof.
  apply (clean_json_files_strips_fences (s2p "cv.json") (s2p "```json") (s2p "{}") (s2p "```") false);
    [reflexivity | reflexivity | reflexivity | simpl; discriminate].
Defined.


Lemma process_file_split (acc : list resume_row * list error_entry) (f : pystr * file_content) :
  process_file acc f = (fst acc ++ fst (process_file ([], []) f),
                        snd acc ++ snd (process_file ([], []) f)).
Proof.
  destruct acc as [rows log], f as [name c].
  destruct c as [| |v]; simpl; rewrite ?app_nil_r; try reflexivity.
  destruct v; simpl; rewrite ?app_nil_r; try reflexivity.
  destruct (flatten_record kv) as [rs [e|]]; simpl; rewrite ?app_nil_r; reflexivity.
Qed.

Lemma fold_process_split (fs : list (pystr * file_content)) (acc : list resume_row * list error_entry) :
  fold_left process_file fs acc =
  (fst acc ++ fst (process_resume_json_files fs), snd acc ++ snd (process_resume_json_files fs)).
Proof.
  unfold process_resume_json_files.
  revert acc; induction fs as [|f fs IH]; intros acc; cbn [fold_left].
  - simpl; rewrite !app_nil_r; destruct acc; reflexivity.
  - rewrite (IH (process_file acc f)), (IH (process_file ([], []) f)).
    rewrite (process_file_split acc f). simpl. rewrite !app_assoc. reflexivity.
Qed.

Lemma process_files_app (fs1 fs2 : list (pystr * file_content)) :
  process_resume_json_files (fs1 ++ fs2) =
  (fst (process_resume_json_files fs1) ++ fst (process_resume_json_files fs2),
   snd (process_resume_json_files fs1) ++ snd (process_resume_json_files fs2)).
Proof.
  unfold process_resume_json_files at 1. rewrite fold_left_app.
  apply fold_process_split.
Qed.

(** Processing a list of files ([process_resume_json_files]) is the
    concatenation of processing its two parts: rows and error entries keep
    the file order, and no file's failure affects another file. *)
Lemma process_resume_json_files_batches (fs1 fs2 : list (pystr * file_content)) :
  process_resume_json_files (fs1 ++ fs2) =
  (fst (process_resume_json_files fs1) ++ fst (process_resume_json_files fs2),
   snd (process_resume_json_files fs1) ++ snd (process_resume_json_files fs2)).
Proof. apply process_files_app. Qed.

Lemma process_file_log_length (f : pystr * file_content) :
  List.length (snd (process_file ([], []) f)) = if file_fails (snd f) then 1%nat else 0%nat.
Proof.
  destruct f as [name c]. destruct c as [| |v]; try reflexivity.
  destruct v; try reflexivity. simpl.
  destruct (flatten_record kv) as [rs [e|]]; reflexivity.
Qed.

(** Processing a folder ([process_resume_json_files]): the error log has
    exactly one entry per file that passes the extension filter and fails
    (empty, undecodable, not an object, or raising in the experience loop);
    other files, and files the filter skips, add none. *)
Lemma process_resume_folder_errors (folder : list (pystr * file_content)) :
  List.length (snd (process_resume_folder folder)) =
  List.length (filter (fun '(name, c) => has_json_ext name && file_fails c) folder).
Proof.
  unfold process_resume_folder.
  induction folder as [|[name c] folder IH]; [reflexivity|].
  simpl filter. destruct (has_json_ext name); simpl andb.
  - change ((name, c) :: filter (fun '(name0, _) => has_json_ext name0) folder)
      with ([(name, c)] ++ filter (fun '(name0, _) => has_json_ext name0) folder).
    rewrite process_files_app. cbn [snd]. rewrite length_app, IH.
    change (process_resume_json_files [(name, c)]) with (process_file ([], []) (name, c)).
    rewrite (process_file_log_length (name, c)). cbn [snd].
    destruct (file_fails c); reflexivity.
  - exact IH.
Qed.

Lemma emit_rows_stops (d : list (pystr * json)) (pre post : list json) (v : json) :
  forallb is_dict pre = true -> is_dict v = false ->
  emit_rows d (pre ++ v :: post) =
  (map (fun e => experience_row d (dict_of e)) pre, Some AttributeError).
Proof.
  intros Hpre Hv. induction pre as [|e pre IH]; simpl.
  - destruct v; try reflexivity. discriminate.
  - simpl in Hpre. apply andb_prop in Hpre. destruct Hpre as [He Hpre].
    destruct e; try discriminate. rewrite IH by exact Hpre. reflexivity.
Qed.

(** Processing one file ([process_resume_json_files]): when the entry of
    [Work Experiences] at some position is not an object, the rows of the
    object entries before it stay in the result and one [AttributeError]
    entry is logged for the file. *)
Lemma process_file_keeps_rows_before_error (rows : list resume_row) (log : list error_entry)
    (name : pystr) (d : list (pystr * json)) (pre post : list json) (v : json) :
  dict_get d K_WORK = Some (JArr (pre ++ v :: post)) ->
  forallb is_dict pre = true -> is_dict v = false ->
  process_file (rows, log) (name, FParsed (JObj d)) =
  (rows ++ map (fun e => experience_row d (dict_of e)) pre,
   log ++ [mk_error name (s2p "AttributeError")]).
Proof.
  intros Hw Hpre Hv. unfold process_file, flatten_record, get_or. rewrite Hw.
  assert (Ht : py_truthy (JArr (pre ++ v :: post)) = true) by (destruct pre; reflexivity).
  rewrite Ht. simpl py_iter. cbv iota beta. rewrite emit_rows_stops by assumption.
  reflexivity.
Qed.

Lemma process_file_keeps_rows_before_error_witness :
  process_file ([], []) (s2p "cv.json",
    FParsed (JObj [(K_WORK, JArr [JObj [(K_COMPANY, JStr (s2p "Acme"))]; JStr (s2p "x")])]))
  = ([] ++ map (fun e => experience_row
                  [(K_WORK, JArr [JObj [(K_COMPANY, JStr (s2p "Acme"))]; JStr (s2p "x")])]
                  (dict_of e)) [JObj [(K_COMPANY, JStr (s2p "Acme"))]],
     [] ++ [mk_error (s2p "cv.json") (s2p "AttributeError")]).
Proof.
  apply (process_file_keeps_rows_before_error [] [] (s2p "cv.json")
           [(K_WORK, JArr [JObj [(K_COMPANY, JStr (s2p "Acme"))]; JStr (s2p "x")])]
           [JObj [(K_COMPANY, JStr (s2p "Acme"))]] [] (JStr (s2p "x")));
    reflexivity.
Defined.

Lemma lstrip_by_map (f : N -> bool) (g : N -> N) (s : pystr) :
  (forall c, f (g c) = f c) -> lstrip_by f (map g s) = map g (lstrip_by f s).
Proof.
  intros Hfg. induction s as [|x t IH]; [reflexivity|].
  simpl. rewrite Hfg. destruct (f x); [exact IH|reflexivity].
Qed.

Lemma rstrip_by_map (f : N -> bool) (g : N -> N) (s : pystr) :
  (forall c, f (g c) = f c) -> rstrip_by f (map g s) = map g (rstrip_by f s).
Proof.
  intros Hfg. unfold rstrip_by. rewrite <- map_rev, lstrip_by_map by exact Hfg.
  symmetry; apply map_rev.
Qed.

Lemma lstrip_by_idem (f : N -> bool) (s : pystr) : lstrip_by f (lstrip_by f s) = lstrip_by f s.
Proof.
  induction s as [|x t IH]; [reflexivity|].
  simpl. destruct (f x) eqn:E; [exact IH|simpl; rewrite E; reflexivity].
Qed.

Lemma lstrip_by_suffix (f : N -> bool) (s : pystr) : exists w, s = w ++ lstrip_by f s.
Proof.
  induction s as [|x t IH]; [exists []; reflexivity|].
  simpl. destruct (f x).
  - destruct IH as [w Hw]. exists (x :: w). simpl. rewrite <- Hw. reflexivity.
  - exists []. reflexivity.
Qed.

Lemma lstrip_by_head (f : N -> bool) (s : pystr) (x : N) (t : pystr) :
  lstrip_by f s = x :: t -> f x = false.
Proof.
  induction s as [|y u IH]; simpl; [discriminate|].
  destruct (f y) eqn:E; [exact IH|intros H; injection H as -> _; exact E].
Qed.

Lemma rstrip_by_prefix (f : N -> bool) (s : pystr) : exists w, s = rstrip_by f s ++ w.
Proof.
  destruct (lstrip_by_suffix f (rev s)) as [w Hw]. exists (rev w).
  unfold rstrip_by. rewrite <- rev_app_distr, <- Hw, rev_involutive. reflexivity.
Qed.

Lemma py_strip_idem (s : pystr) : py_strip (py_strip s) = py_strip s.
Proof.
  unfold py_strip.
  set (y := lstrip_by py_isspace s).
  assert (Hl : lstrip_by py_isspace (rstrip_by py_isspace y) = rstrip_by py_isspace y).
  { destruct (rstrip_by py_isspace y) as [|x t] eqn:E; [reflexivity|].
    destruct (rstrip_by_prefix py_isspace y) as [w Hw]. rewrite E in Hw.
    assert (Hx : py_isspace x = false) by (apply (lstrip_by_head py_isspace s x (t ++ w)); exact Hw).
    simpl. rewrite Hx. reflexivity. }
  rewrite Hl. unfold rstrip_by. rewrite rev_involutive, lstrip_by_idem. reflexivity.
Qed.

Lemma isspace_range (c : N) : py_isspace c = true -> (c <= 32 \/ 133 <= c)%N.
Proof.
  unfold py_isspace. intros H.
  repeat rewrite orb_true_iff in H. repeat rewrite andb_true_iff in H.
  repeat rewrite N.leb_le in H. repeat rewrite N.eqb_eq in H. lia.
Qed.

Lemma isspace_lower_char (c : N) : py_isspace (lower_char c) = py_isspace c.
Proof.
  unfold lower_char. destruct ((65 <=? c) && (c <=? 90))%N eqn:E; [|reflexivity].
  apply andb_true_iff in E. destruct E as [E1 E2]. apply N.leb_le in E1, E2.
  destruct (py_isspace (c + 32)) eqn:A; [apply isspace_range in A; lia|].
  destruct (py_isspace c) eqn:B; [apply isspace_range in B; lia|reflexivity].
Qed.

Lemma lower_char_idem (c : N) : lower_char (lower_char c) = lower_char c.
Proof.
  unfold lower_char. destruct ((65 <=? c) && (c <=? 90))%N eqn:E.
  - apply andb_true_iff in E. destruct E as [E1 E2]. apply N.leb_le in E1, E2.
    rewrite (proj2 (N.leb_gt (c + 32) 90)) by lia. rewrite andb_false_r. reflexivity.
  - rewrite E. reflexivity.
Qed.

Lemma py_strip_lower (s : pystr) : py_strip (py_lower s) = py_lower (py_strip s).
Proof.
  unfold py_strip, py_lower.
  rewrite lstrip_by_map by exact isspace_lower_char.
  apply rstrip_by_map. exact isspace_lower_char.
Qed.

Lemma py_lower_idem (s : pystr) : py_lower (py_lower s) = py_lower s.
Proof.
  unfold py_lower. rewrite map_map. apply map_ext. exact lower_char_idem.
Qed.

Lemma normalize_idem (s : pystr) :
  py_lower (py_strip (py_lower (py_strip s))) = py_lower (py_strip s).
Proof. rewrite py_strip_lower, py_strip_idem, py_lower_idem. reflexivity. Qed.

(** [parse_date] depends on its string only through its stripped,
    lower-cased form: surrounding whitespace and (ASCII) letter case never
    change the result. *)
Lemma parse_date_normalized (now : date) (s : pystr) :
  parse_date now (Some s) = parse_date now (Some (py_lower (py_strip s))).
Proof.
  destruct s as [|c t]; [reflexivity|].
  unfold parse_date at 1. cbv beta iota zeta.
  destruct (py_lower (py_strip (c :: t))) as [|c' t'] eqn:E.
  - reflexivity.
  - assert (Hn : py_lower (py_strip (c' :: t')) = c' :: t')
      by (rewrite <- E; apply normalize_idem).
    unfold parse_date. cbv beta iota zeta. rewrite Hn. reflexivity.
Qed.

Lemma key_eqb_sym (a b : json) : key_eqb a b = key_eqb b a.
Proof.
  destruct a, b; simpl; try reflexivity.
  - destruct b, b0; reflexivity.
  - apply Z.eqb_sym.
  - destruct (list_eq_dec N.eq_dec s s0), (list_eq_dec N.eq_dec s0 s); congruence.
Qed.

Lemma key_eqb_trans (a b c : json) : key_eqb a b = true -> key_eqb a c = key_eqb b c.
Proof.
  destruct a, b; simpl; intros H; try discriminate; destruct c; simpl; try reflexivity.
  all: repeat match goal with
       | H : Bool.eqb _ _ = true |- _ => apply Bool.eqb_prop in H; subst
       | H : Z.eqb _ _ = true |- _ => apply Z.eqb_eq in H; subst
       | H : (if list_eq_dec N.eq_dec ?x ?y then true else false) = true |- _ =>
           destruct (list_eq_dec N.eq_dec x y); [subst|discriminate]
       end; try reflexivity.
  all: try (destruct b; destruct b0; reflexivity).
  all: try apply Z.eqb_sym.
Qed.

Lemma key_eqb_refl (m : json) : unhashable m = false -> key_eqb m m = true.
Proof.
  destruct m; simpl; intros H; try discriminate; try reflexivity.
  - destruct b; reflexivity.
  - apply Z.eqb_refl.
  - destruct (list_eq_dec N.eq_dec s s); congruence.
Qed.

Lemma sum_matching_cons (k k' : json) (t : Z) (r : list (json * Z)) :
  sum_matching k ((k', t) :: r) = ((if key_eqb k k' then t else 0) + sum_matching k r)%Z.
Proof.
  unfold sum_matching. simpl. destruct (key_eqb k k'); simpl; lia.
Qed.

Lemma sum_matching_add (k m : json) (d : Z) (acc : list (json * Z)) :
  sum_matching k (add_to_group m d acc) =
  (sum_matching k acc + if key_eqb k m then d else 0)%Z.
Proof.
  induction acc as [|[k' t] r IH]; simpl add_to_group.
  - rewrite sum_matching_cons. change (sum_matching k []) with 0%Z. lia.
  - destruct (key_eqb m k') eqn:E; rewrite !sum_matching_cons.
    + assert (Hk : key_eqb k k' = key_eqb k m).
      { rewrite (key_eqb_sym k k'), (key_eqb_sym k m). symmetry. apply key_eqb_trans. exact E. }
      rewrite Hk. destruct (key_eqb k m); lia.
    + rewrite IH. lia.
Qed.

Lemma sum_matching_fold (k : json) (rows : list mobile_row) (acc : list (json * Z)) :
  sum_matching k (fold_left (fun acc '(m, d) => add_to_group m d acc) rows acc) =
  (sum_matching k acc + sum_matching k rows)%Z.
Proof.
  revert acc; induction rows as [|[m d] rows IH]; intros acc; simpl fold_left.
  - change (sum_matching k []) with 0%Z. lia.
  - rewrite IH, sum_matching_add, sum_matching_cons. destruct (key_eqb k m); lia.
Qed.

Lemma groupby_totals (rows : list mobile_row) (g : list (json * Z)) (k : json) :
  overall_exp rows = Some g ->
  sum_matching k g = sum_matching k (dropna_mobile (clean_mobiles rows)).
Proof.
  unfold overall_exp, groupby_sum.
  destruct (existsb _ _); intros H; [discriminate|]. injection H as <-.
  rewrite sum_matching_fold. change (sum_matching k []) with 0%Z. lia.
Qed.

Lemma total_add (m : json) (d : Z) (acc : list (json * Z)) :
  fold_right Z.add 0%Z (map snd (add_to_group m d acc)) = (fold_right Z.add 0%Z (map snd acc) + d)%Z.
Proof.
  induction acc as [|[k' t] r IH]; simpl; [lia|].
  destruct (key_eqb m k'); simpl; [lia|]. rewrite IH. lia.
Qed.

(** Aggregation ([upload_resumes]): the totals of [overall_exp] add up to
    the sum of the durations of the rows kept by [dropna]; no duration is
    lost or counted twice. *)
Lemma overall_exp_conserves (rows : list mobile_row) (g : list (json * Z)) :
  overall_exp rows = Some g ->
  fold_right Z.add 0%Z (map snd g) =
  fold_right Z.add 0%Z (map snd (dropna_mobile (clean_mobiles rows))).
Proof.
  unfold overall_exp, groupby_sum.
  destruct (existsb _ _); intros H; [discriminate|]. injection H as <-.
  assert (Hg : forall (l : list mobile_row) (acc : list (json * Z)),
    fold_right Z.add 0%Z (map snd (fold_left (fun acc '(m, d) => add_to_group m d acc) l acc)) =
    (fold_right Z.add 0%Z (map snd acc) + fold_right Z.add 0%Z (map snd l))%Z).
  { induction l as [|[m d] l IH]; intros acc; simpl fold_left; [simpl; lia|].
    rewrite IH, total_add. simpl. lia. }
  rewrite Hg. simpl. reflexivity.
Qed.

(** Aggregation ([upload_resumes]): the total [overall_exp] gives for a
    key is the sum of the durations of the kept rows whose cleaned Mobile is
    [==] to that key. *)
Lemma overall_exp_totals (rows : list mobile_row) (g : list (json * Z)) (k : json) :
  overall_exp rows = Some g ->
  sum_matching k g = sum_matching k (dropna_mobile (clean_mobiles rows)).
Proof. apply groupby_totals. Qed.

Lemma keys_add (m : json) (d : Z) (acc : list (json * Z)) :
  map fst (add_to_group m d acc) = map fst acc \/
  map fst (add_to_group m d acc) = map fst acc ++ [m].
Proof.
  induction acc as [|[k' t] r IH]; simpl; [right; reflexivity|].
  destruct (key_eqb m k'); simpl; [left; reflexivity|].
  destruct IH as [IH|IH]; rewrite IH; [left|right]; reflexivity.
Qed.

Lemma forallb_keys (P : json -> bool) (l : list (json * Z)) :
  forallb (fun '(k, _) => P k) l = forallb P (map fst l).
Proof. induction l as [|[k t] l IH]; simpl; [reflexivity|]. rewrite IH; reflexivity. Qed.

Lemma distinct_keys_add (m : json) (d : Z) (acc : list (json * Z)) :
  distinct_keys acc = true -> distinct_keys (add_to_group m d acc) = true.
Proof.
  induction acc as [|[k' t] r IH]; intros H; [reflexivity|].
  simpl in H. apply andb_prop in H. destruct H as [Hf Hd].
  simpl add_to_group. destruct (key_eqb m k') eqn:E; simpl.
  - rewrite Hf, Hd. reflexivity.
  - rewrite IH by exact Hd. rewrite andb_true_r.
    rewrite forallb_keys in *. destruct (keys_add m d r) as [K|K]; rewrite K; [exact Hf|].
    rewrite forallb_app, Hf. simpl. rewrite key_eqb_sym, E. reflexivity.
Qed.

Lemma distinct_keys_fold (l : list mobile_row) (acc : list (json * Z)) :
  distinct_keys acc = true ->
  distinct_keys (fold_left (fun acc '(m, d) => add_to_group m d acc) l acc) = true.
Proof.
  revert acc; induction l as [|[m d] l IH]; intros acc Hacc; simpl fold_left; [exact Hacc|].
  apply IH. apply distinct_keys_add. exact Hacc.
Qed.

Lemma groupby_distinct (rows : list mobile_row) (g : list (json * Z)) :
  overall_exp rows = Some g -> distinct_keys g = true.
Proof.
  unfold overall_exp, groupby_sum.
  destruct (existsb _ _); intros H; [discriminate|]. injection H as <-.
  apply distinct_keys_fold. reflexivity.
Qed.

(** Aggregation ([upload_resumes]): [overall_exp] has one entry per
    distinct Mobile: no two of its keys are [==]. *)
Lemma overall_exp_distinct_keys (rows : list mobile_row) (g : list (json * Z)) :
  overall_exp rows = Some g -> distinct_keys g = true.
Proof. apply groupby_distinct. Qed.

Lemma key_present_add (m : json) (d : Z) (acc : list (json * Z)) :
  unhashable m = false ->
  exists k, In k (map fst (add_to_group m d acc)) /\ key_eqb m k = true.
Proof.
  intros Hm. induction acc as [|[k' t] r IH]; simpl.
  - exists m. split; [left; reflexivity|apply key_eqb_refl; exact Hm].
  - destruct (key_eqb m k') eqn:E.
    + exists k'. split; [left; reflexivity|exact E].
    + destruct IH as [k [Hk Hmk]]. exists k. split; [right; exact Hk|exact Hmk].
Qed.

Lemma key_keep_add (k m : json) (d : Z) (acc : list (json * Z)) :
  In k (map fst acc) -> In k (map fst (add_to_group m d acc)).
Proof.
  intros H. destruct (keys_add m d acc) as [K|K]; rewrite K; [exact H|].
  apply in_or_app. left; exact H.
Qed.

Lemma key_keep_fold (k : json) (l : list mobile_row) (acc : list (json * Z)) :
  In k (map fst acc) ->
  In k (map fst (fold_left (fun acc '(m, d) => add_to_group m d acc) l acc)).
Proof.
  revert acc; induction l as [|[m d] l IH]; intros acc H; simpl fold_left; [exact H|].
  apply IH. apply key_keep_add. exact H.
Qed.

Lemma key_present_fold (l : list mobile_row) (acc : list (json * Z)) (m : json) (d : Z) :
  existsb (fun '(m, _) => unhashable m) l = false -> In (m, d) l ->
  exists k, In k (map fst (fold_left (fun acc '(m, d) => add_to_group m d acc) l acc))
            /\ key_eqb m k = true.
Proof.
  revert acc; induction l as [|[m' d'] l IH]; intros acc Hh Hin; [destruct Hin|].
  simpl in Hh. apply orb_false_iff in Hh. destruct Hh as [Hm' Hh].
  simpl fold_left. destruct Hin as [Heq|Hin].
  - injection Heq as -> ->.
    destruct (key_present_add m d acc Hm') as [k [Hk Hmk]].
    exists k. split; [apply key_keep_fold; exact Hk|exact Hmk].
  - apply IH; assumption.
Qed.

Lemma filter_no_match (k m : json) (r : list (json * Z)) :
  forallb (fun '(k2, _) => negb (key_eqb k k2)) r = true -> key_eqb m k = true ->
  filter (fun '(k2, _) => key_eqb m k2) r = [].
Proof.
  intros Hr Hmk. induction r as [|[k2 t2] r IH]; [reflexivity|].
  simpl in Hr. apply andb_prop in Hr. destruct Hr as [H2 Hr].
  simpl. rewrite (key_eqb_trans m k k2 Hmk). apply negb_true_iff in H2. rewrite H2.
  apply IH. exact Hr.
Qed.

Lemma merge_one_row (m : json) (d : Z) (g : list (json * Z)) :
  distinct_keys g = true -> (exists k, In k (map fst g) /\ key_eqb m k = true) ->
  map (fun '(_, t) => (m, d, t)) (filter (fun '(k, _) => key_eqb m k) g) =
  [(m, d, sum_matching m g)].
Proof.
  induction g as [|[k t] r IH]; intros Hd [k0 [Hin Hmk0]]; [destruct Hin|].
  simpl in Hd. apply andb_prop in Hd. destruct Hd as [Hf Hd].
  rewrite sum_matching_cons. simpl filter. destruct (key_eqb m k) eqn:E.
  - rewrite (filter_no_match k m r Hf E).
    assert (Hz : sum_matching m r = 0%Z) by (unfold sum_matching; rewrite (filter_no_match k m r Hf E); reflexivity).
    rewrite Hz, Z.add_0_r. reflexivity.
  - simpl in Hin. destruct Hin as [<-|Hin]; [congruence|].
    rewrite IH by (exact Hd || (exists k0; split; assumption)). reflexivity.
Qed.

Lemma flat_map_single {A B : Type} (f : A -> list B) (h : A -> B) (l : list A) :
  (forall x, In x l -> f x = [h x]) -> flat_map f l = map h l.
Proof.
  induction l as [|x l IH]; intros H; [reflexivity|].
  simpl. rewrite H by (left; reflexivity). rewrite IH by (intros y Hy; apply H; right; exact Hy).
  reflexivity.
Qed.

(** The merge of [upload_resumes]: every row kept by [dropna] appears once,
    in order, with its own duration and the sum of the durations of all kept
    rows whose Mobile is [==] to its Mobile. *)
Lemma upload_frame_totals (rows : list mobile_row) (out : list (json * Z * Z)) :
  upload_frame rows = Some out ->
  out = map (fun '(m, d) => (m, d, sum_matching m (dropna_mobile (clean_mobiles rows))))
            (dropna_mobile (clean_mobiles rows)).
Proof.
  unfold upload_frame. destruct (overall_exp rows) as [g|] eqn:E; intros H; [|discriminate].
  injection H as <-.
  pose proof (groupby_distinct rows g E) as Hd.
  pose proof E as E'. unfold overall_exp, groupby_sum in E'.
  destruct (existsb _ _) eqn:Hh in E'; [discriminate|]. injection E' as Hg.
  unfold merge_totals. apply flat_map_single. intros [m d] Hin.
  rewrite <- (groupby_totals rows g m E).
  apply merge_one_row; [exact Hd|].
  rewrite <- Hg. apply key_present_fold with (d := d); assumption.
Qed.

Lemma overall_exp_totals_witness :
  sum_matching (JStr (s2p "9876543210")) [(JStr (s2p "9876543210"), 12%Z)] =
  sum_matching (JStr (s2p "9876543210")) (dropna_mobile (clean_mobiles [(JStr (s2p "987-654-3210"), 5%Z); (JStr (s2p "9876543210"), 7%Z); (JNull, 3%Z)])).
Proof. apply (overall_exp_totals [(JStr (s2p "987-654-3210"), 5%Z); (JStr (s2p "9876543210"), 7%Z); (JNull, 3%Z)]); vm_compute; reflexivity. Defined.

Lemma overall_exp_conserves_witness :
  fold_right Z.add 0%Z (map snd [(JStr (s2p "9876543210"), 12%Z)]) =
  fold_right Z.add 0%Z (map snd (dropna_mobile (clean_mobiles [(JStr (s2p "987-654-3210"), 5%Z); (JStr (s2p "9876543210"), 7%Z); (JNull, 3%Z)]))).
Proof. apply (overall_exp_conserves [(JStr (s2p "987-654-3210"), 5%Z); (JStr (s2p "9876543210"), 7%Z); (JNull, 3%Z)]); vm_compute; reflexivity. Defined.

Lemma overall_exp_distinct_keys_witness : distinct_keys [(JStr (s2p "9876543210"), 12%Z)] = true.
Proof. apply (overall_exp_distinct_keys [(JStr (s2p "987-654-3210"), 5%Z); (JStr (s2p "9876543210"), 7%Z); (JNull, 3%Z)]); vm_compute; reflexivity. Defined.

Lemma upload_frame_totals_witness :
  [(JStr (s2p "9876543210"), 5%Z, 12%Z); (JStr (s2p "9876543210"), 7%Z, 12%Z)] =
  map (fun '(m, d) => (m, d, sum_matching m (dropna_mobile (clean_mobiles [(JStr (s2p "987-654-3210"), 5%Z); (JStr (s2p "9876543210"), 7%Z); (JNull, 3%Z)]))))
      (dropna_mobile (clean_mobiles [(JStr (s2p "987-654-3210"), 5%Z); (JStr (s2p "9876543210"), 7%Z); (JNull, 3%Z)])).
Proof. apply (upload_frame_totals [(JStr (s2p "987-654-3210"), 5%Z); (JStr (s2p "9876543210"), 7%Z); (JNull, 3%Z)]); vm_compute; reflexivity. Defined.


Lemma pystr_eqb_sym (a b : pystr) : pystr_eqb a b = pystr_eqb b a.
Proof.
  unfold pystr_eqb; destruct (list_eq_dec N.eq_dec a b), (list_eq_dec N.eq_dec b a); congruence.
Qed.

Lemma filter_and_none {A} (p q : A -> bool) (l : list A) :
  existsb p l = false -> filter (fun x => p x && q x) l = [].
Proof.
  induction l as [|x l IH]; simpl; intros H; [reflexivity|].
  apply orb_false_iff in H. destruct H as [H1 H2]. rewrite H1. simpl. apply IH; exact H2.
Qed.

Lemma insert_resume_data_cases (db : table) (cd : pystr) (row : upload_row) :
  (existsb (fun r => pystr_eqb (t_mobile r) (u_Mobile row)) db = true
   /\ (insert_resume_data db cd row = (Skipped, db) \/
       insert_resume_data db cd row =
       match insert_values row with
       | inr BindOverflow => (InsertOverflow, db)
       | _ => (InsertError, db)
       end))
  \/ (existsb (fun r => pystr_eqb (t_mobile r) (u_Mobile row)) db = false
      /\ insert_resume_data db cd row =
         match insert_values row with
         | inl v => (Inserted, db ++ [mk_db_row (u_Mobile row) cd v])
         | inr BindUnsupported => (InsertError, db)
         | inr BindOverflow => (InsertOverflow, db)
         end).
Proof.
  destruct (existsb (fun r => pystr_eqb (t_mobile r) (u_Mobile row)) db) eqn:Ex.
  - left. split; [reflexivity|]. unfold insert_resume_data.
    destruct (Nat.eqb _ 0); [|left; reflexivity]. right.
    rewrite ?insert_sql_placeholders. simpl Nat.eqb. cbv iota beta.
    unfold insert_values. destruct (bind_all _) as [v|[|]]; [rewrite Ex| |]; reflexivity.
  - right. split; [reflexivity|]. unfold insert_resume_data.
    rewrite (filter_and_none _ _ db Ex). simpl Nat.eqb. cbv zeta.
    rewrite ?insert_sql_placeholders. simpl Nat.eqb. cbv iota beta.
    unfold insert_values. destruct (bind_all _) as [v|[|]]; [rewrite Ex| |]; reflexivity.
Qed.

(** [insert_resume_data] appends a row exactly when no row with the mobile is
    stored and all its values bind; a value of an unsupported type (a list or
    a dict) gives a caught [sqlite3] error, and an [int] outside the signed
    64-bit range raises [OverflowError] out of the function, leaving the
    table as it is.  When the mobile is stored, the result is the skip
    branch, or the INSERT fails (the primary key error is caught, the
    [OverflowError] of binding is not). *)
Lemma insert_resume_data_outcomes (db : table) (cd : pystr) (row : upload_row) :
  (existsb (fun r => pystr_eqb (t_mobile r) (u_Mobile row)) db = true
   /\ (insert_resume_data db cd row = (Skipped, db) \/
       insert_resume_data db cd row =
       match insert_values row with
       | inr BindOverflow => (InsertOverflow, db)
       | _ => (InsertError, db)
       end))
  \/ (existsb (fun r => pystr_eqb (t_mobile r) (u_Mobile row)) db = false
      /\ insert_resume_data db cd row =
         match insert_values row with
         | inl v => (Inserted, db ++ [mk_db_row (u_Mobile row) cd v])
         | inr BindUnsupported => (InsertError, db)
         | inr BindOverflow => (InsertOverflow, db)
         end).
Proof. apply insert_resume_data_cases. Qed.


Lemma save_to_database_step (db : table) (cd : pystr) (r : upload_row) (rows : list upload_row) :
  save_to_database db cd (r :: rows) =
  match fst (insert_resume_data db cd r) with
  | InsertOverflow => snd (insert_resume_data db cd r)
  | _ => save_to_database (snd (insert_resume_data db cd r)) cd rows
  end.
Proof. cbn [save_to_database]. destruct (insert_resume_data db cd r) as [[] db']; reflexivity. Qed.

Lemma existsb_mobile (db : table) (m : pystr) :
  existsb (fun r => pystr_eqb (t_mobile r) m) db = existsb (pystr_eqb m) (map t_mobile db).
Proof.
  induction db as [|r db IH]; simpl; [reflexivity|]. rewrite IH, pystr_eqb_sym. reflexivity.
Qed.

(** Saving a batch ([Save to Database] in [upload_resumes]): when every row's
    values bind, the table grows by exactly the first row of each mobile that
    is not stored yet, in batch order; later rows of the same mobile, and rows
    of stored mobiles, change nothing. *)
Lemma save_to_database_first_rows (db : table) (cd : pystr) (rows : list upload_row) :
  (forall r, In r rows -> exists v, insert_values r = inl v) ->
  save_to_database db cd rows = db ++ map (stored_row cd) (first_new (map t_mobile db) rows).
Proof.
  revert db; induction rows as [|r rows IH]; intros db Hb.
  - cbn [save_to_database first_new map]. rewrite app_nil_r. reflexivity.
  - assert (Hrest : forall x, In x rows -> exists v, insert_values x = inl v)
      by (intros x Hx; apply Hb; right; exact Hx).
    destruct (Hb r (or_introl eq_refl)) as [v Hv].
    rewrite save_to_database_step. cbn [first_new]. rewrite <- existsb_mobile.
    destruct (insert_resume_data_cases db cd r) as [[Ex [Hi|Hi]]|[Ex Hi]];
      try rewrite Hv in Hi; rewrite Hi, Ex; cbn [fst snd].
    + apply IH; exact Hrest.
    + apply IH; exact Hrest.
    + cbn [map]. rewrite IH by exact Hrest.
      rewrite map_app. cbn [map t_mobile].
      replace (stored_row cd r) with (mk_db_row (u_Mobile r) cd v)
        by (unfold stored_row; rewrite Hv; reflexivity).
      rewrite <- app_assoc. reflexivity.
Qed.

(** Saving a batch keeps the primary key: a table without two rows of the
    same mobile never gets one. *)
Lemma save_to_database_unique (db : table) (cd : pystr) (rows : list upload_row) :
  NoDup (map t_mobile db) -> NoDup (map t_mobile (save_to_database db cd rows)).
Proof.
  revert db; induction rows as [|r rows IH]; intros db Hd; [exact Hd|].
  assert (Hn : NoDup (map t_mobile (snd (insert_resume_data db cd r)))).
  { destruct (insert_resume_data_cases db cd r) as [[Ex [Hi|Hi]]|[Ex Hi]]; rewrite Hi.
    - exact Hd.
    - destruct (insert_values r) as [v|[|]]; exact Hd.
    - destruct (insert_values r) as [v|[|]]; try exact Hd.
      cbn [snd]. rewrite map_app. cbn [map t_mobile].
      apply (Permutation_NoDup (Permutation_app_comm [u_Mobile r] (map t_mobile db))).
      simpl. constructor; [|exact Hd].
      intros Hin. apply in_map_iff in Hin. destruct Hin as [x [Hx Hin]].
      assert (Hc : existsb (fun r0 => pystr_eqb (t_mobile r0) (u_Mobile r)) db = true).
      { apply existsb_exists. exists x. split; [exact Hin|]. rewrite Hx. apply pystr_eqb_refl. }
      congruence. }
  rewrite save_to_database_step.
  destruct (fst (insert_resume_data db cd r)); try (apply IH; exact Hn). exact Hn.
Qed.


Lemma delete_resume_absent (db : table) (m : pystr) :
  existsb (fun r => pystr_eqb (t_mobile r) m) db = false -> delete_resume db m = db.
Proof.
  unfold delete_resume. induction db as [|r db IH]; simpl; intros H; [reflexivity|].
  apply orb_false_iff in H. destruct H as [H1 H2]. rewrite H1. simpl. rewrite IH by exact H2.
  reflexivity.
Qed.

Lemma delete_resume_removes (db : table) (m : pystr) :
  existsb (fun r => pystr_eqb (t_mobile r) m) (delete_resume db m) = false.
Proof.
  unfold delete_resume. induction db as [|r db IH]; simpl; [reflexivity|].
  destruct (pystr_eqb (t_mobile r) m) eqn:E; simpl; [exact IH|]. rewrite E. exact IH.
Qed.

(** [delete_resume] and [insert_resume_data]: deleting the mobile of a row
    just inserted gives back the table as it was; after deleting a mobile, a
    row for it whose values bind is inserted again. *)
Lemma delete_resume_insert_round_trip (db : table) (cd : pystr) (row : upload_row) :
  (fst (insert_resume_data db cd row) = Inserted ->
   delete_resume (snd (insert_resume_data db cd row)) (u_Mobile row) = db) /\
  ((exists v, insert_values row = inl v) ->
   fst (insert_resume_data (delete_resume db (u_Mobile row)) cd row) = Inserted).
Proof.
  split.
  - destruct (insert_resume_data_cases db cd row) as [[Ex [Hi|Hi]]|[Ex Hi]]; rewrite Hi.
    + cbn [fst]. intros H; discriminate.
    + destruct (insert_values row) as [v|[|]]; cbn [fst]; intros H; discriminate.
    + destruct (insert_values row) as [v|[|]]; cbn [fst snd]; intros H; try discriminate.
      unfold delete_resume. rewrite filter_app. fold (delete_resume db (u_Mobile row)).
      rewrite delete_resume_absent by exact Ex. simpl. rewrite pystr_eqb_refl. simpl.
      apply app_nil_r.
  - intros [v Hv].
    destruct (insert_resume_data_cases (delete_resume db (u_Mobile row)) cd row)
      as [[Ex _]|[Ex Hi]].
    + rewrite delete_resume_removes in Ex. discriminate.
    + rewrite Hi, Hv. reflexivity.
Qed.

Lemma save_to_database_first_rows_witness :
  save_to_database [] (s2p "2026-10-15") [mk_upload_row (JStr (s2p "Ann")) (s2p "9876543210") EMPTY [] (JStr (s2p "Acme")) EMPTY 5 12; mk_upload_row (JStr (s2p "Ann")) (s2p "9876543210") EMPTY [] (JStr (s2p "Beta")) EMPTY 7 12; mk_upload_row (JStr (s2p "Bo")) (s2p "5550100") EMPTY [] EMPTY EMPTY 0 0] =
  [] ++ map (stored_row (s2p "2026-10-15"))
            (first_new (map t_mobile []) [mk_upload_row (JStr (s2p "Ann")) (s2p "9876543210") EMPTY [] (JStr (s2p "Acme")) EMPTY 5 12; mk_upload_row (JStr (s2p "Ann")) (s2p "9876543210") EMPTY [] (JStr (s2p "Beta")) EMPTY 7 12; mk_upload_row (JStr (s2p "Bo")) (s2p "5550100") EMPTY [] EMPTY EMPTY 0 0]).
Proof.
  apply save_to_database_first_rows.
  intros r Hr. simpl in Hr. destruct Hr as [<-|[<-|[<-|[]]]]; eexists; vm_compute; reflexivity.
Defined.

Lemma save_to_database_unique_witness :
  NoDup (map t_mobile (save_to_database [] (s2p "2026-10-15") [mk_upload_row (JStr (s2p "Ann")) (s2p "9876543210") EMPTY [] (JStr (s2p "Acme")) EMPTY 5 12; mk_upload_row (JStr (s2p "Ann")) (s2p "9876543210") EMPTY [] (JStr (s2p "Beta")) EMPTY 7 12; mk_upload_row (JStr (s2p "Bo")) (s2p "5550100") EMPTY [] EMPTY EMPTY 0 0])).
Proof. apply save_to_database_unique. constructor. Defined.


Lemma delete_resume_insert_round_trip_witness :
  delete_resume (snd (insert_resume_data [] (s2p "2026-10-15") (mk_upload_row (JStr (s2p "Ann")) (s2p "9876543210") EMPTY [] (JStr (s2p "Acme")) EMPTY 5 12))) (s2p "9876543210") = [] /\
  fst (insert_resume_data (delete_resume [mk_db_row (s2p "9876543210") (s2p "2025-01-01") []]
                             (s2p "9876543210")) (s2p "2026-10-15") (mk_upload_row (JStr (s2p "Ann")) (s2p "9876543210") EMPTY [] (JStr (s2p "Acme")) EMPTY 5 12)) = Inserted.
Proof.
  split.
  - apply (proj1 (delete_resume_insert_round_trip [] (s2p "2026-10-15") (mk_upload_row (JStr (s2p "Ann")) (s2p "9876543210") EMPTY [] (JStr (s2p "Acme")) EMPTY 5 12))). reflexivity.
  - apply (proj2 (delete_resume_insert_round_trip [mk_db_row (s2p "9876543210") (s2p "2025-01-01") []]
                    (s2p "2026-10-15") (mk_upload_row (JStr (s2p "Ann")) (s2p "9876543210") EMPTY [] (JStr (s2p "Acme")) EMPTY 5 12))).
    eexists; vm_compute; reflexivity.
Defined.


Lemma placeholders_app (a b : pystr) : placeholders (a ++ b) = (placeholders a + placeholders b)%nat.
Proof. unfold placeholders. rewrite filter_app, length_app. reflexivity. Qed.

Lemma add_condition_balanced (acc : pystr * list pystr) (value clause param : pystr) :
  placeholders clause = 1%nat -> placeholders (fst acc) = List.length (snd acc) ->
  placeholders (fst (add_condition acc value clause param)) =
  List.length (snd (add_condition acc value clause param)).
Proof.
  intros Hc Ha. destruct value as [|x v]; [exact Ha|]. cbn [add_condition fst snd].
  rewrite placeholders_app, length_app, Hc, Ha. reflexivity.
Qed.

(** [search_resumes] always hands [read_sql_query] as many parameters as
    its statement has placeholders, whatever filters are given. *)
Lemma search_query_balanced (name company graduation created_at : pystr) :
  placeholders (fst (search_query name company graduation created_at)) =
  List.length (snd (search_query name company graduation created_at)).
Proof.
  unfold search_query.
  repeat apply add_condition_balanced; vm_compute; reflexivity.
Qed.

Lemma In_suffixes (x s : pystr) : In x (suffixes s) <-> exists a, s = a ++ x.
Proof.
  revert x; induction s as [|c t IH]; intros x; simpl.
  - split.
    + intros [<-|[]]. exists []. reflexivity.
    + intros [a Ha]. symmetry in Ha. apply app_eq_nil in Ha. destruct Ha as [_ ->]. left; reflexivity.
  - split.
    + intros [<-|H]; [exists []; reflexivity|].
      apply IH in H. destruct H as [a Ha]. exists (c :: a). rewrite Ha. reflexivity.
    + intros [a Ha]. destruct a as [|c' a].
      * left. simpl in Ha. exact Ha.
      * right. apply IH. injection Ha as _ Ha. exists a. exact Ha.
Qed.

Lemma like_percent (s : pystr) : like PERCENT s = true.
Proof.
  simpl. apply existsb_exists. exists []. split; [|reflexivity].
  apply In_suffixes. exists s. symmetry. apply app_nil_r.
Qed.

Lemma like_literal (t p s : pystr) :
  mem 37 t = false -> mem 95 t = false ->
  (like (t ++ p) s = true <->
   exists t' s', s = t' ++ s' /\ py_lower t' = py_lower t /\ like p s' = true).
Proof.
  revert s; induction t as [|c t IH]; intros s H37 H95.
  - simpl. split.
    + intros H. exists [], s. repeat split; assumption.
    + intros [t' [s' [-> [Hl Hp]]]]. destruct t'; [exact Hp|discriminate].
  - simpl in H37, H95. apply orb_false_iff in H37, H95.
    destruct H37 as [C37 H37], H95 as [C95 H95].
    cbn [app like]. rewrite C37, C95. simpl orb. split.
    + destruct s as [|x s']; [discriminate|]. intros H. apply andb_prop in H.
      destruct H as [Hx H]. apply N.eqb_eq in Hx.
      apply (IH s' H37 H95) in H. destruct H as [t'' [s'' [-> [Hl Hp]]]].
      exists (x :: t''), s''. repeat split; try assumption.
      unfold py_lower in *. simpl. rewrite Hl, Hx. reflexivity.
    + intros [t' [s' [-> [Hl Hp]]]]. destruct t' as [|x t'']; [discriminate|].
      unfold py_lower in Hl. simpl in Hl. injection Hl as Hx Hl.
      simpl. rewrite Hx, N.eqb_refl. simpl. apply (IH _ H37 H95).
      exists t'', s'. repeat split; assumption.
Qed.

Lemma like_contains (t s : pystr) :
  mem 37 t = false -> mem 95 t = false ->
  (like (PERCENT ++ t ++ PERCENT) s = true <->
   exists a t' b, s = a ++ t' ++ b /\ py_lower t' = py_lower t).
Proof.
  intros H37 H95. cbn [PERCENT app like]. simpl (37 =? 37)%N. cbv iota.
  rewrite existsb_exists. split.
  - intros [x [Hx Hl]]. apply In_suffixes in Hx. destruct Hx as [a ->].
    apply (like_literal t PERCENT x H37 H95) in Hl. destruct Hl as [t' [b [-> [Hl _]]]].
    exists a, t', b. split; [reflexivity|exact Hl].
  - intros [a [t' [b [-> Hl]]]]. exists (t' ++ b). split.
    + apply In_suffixes. exists a. reflexivity.
    + apply (like_literal t PERCENT _ H37 H95). exists t', b. repeat split; try assumption.
      apply like_percent.
Qed.

(** Searching by name ([search_resumes]) with a non-empty text free of [%]
    and [_] returns exactly the rows whose name contains the text up to ASCII
    case; a [NULL] name never matches. *)
Lemma search_resumes_by_name (db : table) (t : pystr) (r : db_row) :
  t <> [] -> mem 37 t = false -> mem 95 t = false ->
  (In r (search_resumes db t [] []) <->
   In r db /\ exists s a t' b, sql_text (nth 0 (t_values r) SNull) = Some s
                          /\ s = a ++ t' ++ b /\ py_lower t' = py_lower t).
Proof.
  intros Hne H37 H95. unfold search_resumes. rewrite filter_In.
  unfold like_filter at 2 3. rewrite !andb_true_r.
  unfold like_filter. destruct t as [|c u]; [congruence|]. unfold like_col.
  destruct (sql_text (nth 0 (t_values r) SNull)) as [s|].
  - rewrite (like_contains (c :: u) s H37 H95). split.
    + intros [Hin [a [t' [b [Hs Hl]]]]]. split; [exact Hin|]. exists s, a, t', b. auto.
    + intros [Hin [s' [a [t' [b [Hs [Hs' Hl]]]]]]]. injection Hs as <-.
      split; [exact Hin|]. exists a, t', b. auto.
  - split; [intros [_ H]; discriminate|]. intros [_ [s [a [t' [b [Hs _]]]]]]. discriminate.
Qed.

(** [view_resumes] stops with [KeyError] at [df['Mobile']] for every table:
    the fetched columns are lower case, so the editor, the update loop and
    the delete button are never reached. *)
Lemma view_resumes_key_error (db : table) : view_resumes db = ViewKeyError.
Proof. reflexivity. Qed.

Lemma search_resumes_by_name_witness :
  In (mk_db_row (s2p "9876543210") (s2p "2026-10-15") [SText (s2p "Ann Lee"); SNull; SText []; SText (s2p "Acme")]) (search_resumes [mk_db_row (s2p "9876543210") (s2p "2026-10-15") [SText (s2p "Ann Lee"); SNull; SText []; SText (s2p "Acme")]] (s2p "LEE") [] []) <->
  In (mk_db_row (s2p "9876543210") (s2p "2026-10-15") [SText (s2p "Ann Lee"); SNull; SText []; SText (s2p "Acme")]) [mk_db_row (s2p "9876543210") (s2p "2026-10-15") [SText (s2p "Ann Lee"); SNull; SText []; SText (s2p "Acme")]] /\
  exists s a t' b, sql_text (nth 0 (t_values (mk_db_row (s2p "9876543210") (s2p "2026-10-15") [SText (s2p "Ann Lee"); SNull; SText []; SText (s2p "Acme")])) SNull) = Some s
                   /\ s = a ++ t' ++ b /\ py_lower t' = py_lower (s2p "LEE").
Proof. apply search_resumes_by_name; [discriminate | reflexivity | reflexivity]. Defined.
